(** * Lecture Voice-to-Notes Generator: the client-side controller

    A shallow embedding of [static/app.js]: the module-level variables, the
    part of the page the script reads and writes, and the browser objects it
    creates (media recorders, intervals, object URLs, outbound requests) are
    gathered in one explicit state; every function and event handler of the
    script is a state transformer named after it.

    Conventions.
    - Strings are byte strings (UTF-8).  The characters the script inspects
      (the five escaped ones, the extension letters, the dot) are ASCII, and
      an ASCII byte never occurs inside a multi-byte UTF-8 sequence, so the
      byte-wise scans agree with the code-unit-wise scans of the script.
    - The payloads of the two endpoints are taken at the types of their
      contract (strings, lists of strings, lists of question/answer and
      front/back objects), every field possibly absent.
    - An [async] handler is a computation in the monad [Js]; each [await] and
      each [setTimeout] continuation is a [yield] that records the state the
      page shows while the handler is suspended.  Handlers are run one at a
      time: events arriving while another handler is suspended are outside
      this development.
    - [console.error] and [scrollIntoView] leave no trace in the state.  The
      result tabs, the answer toggles and the card flips only change the
      look of what [displayResults] rendered and are left out. *)

From Stdlib Require Import NArith ZArith Lia DecimalString Ascii Sorted.
From stdpp Require Import base option list strings.

#[local] Arguments String.append !_ _ / : simpl nomatch.

(** ** JavaScript helpers *)

Definition dquote : ascii := "034"%char.
Definition nl : string := String "010"%char EmptyString.
Definition q : string := String dquote EmptyString.

(** Truthiness of a possibly absent string: [undefined] and the empty string
    are falsy. *)
Definition truthy (o : option string) : bool :=
  match o with
  | Some (String _ _) => true
  | _ => false
  end.

(** [a || b] where [a] is a possibly absent string and [b] a string. *)
Definition js_or (o : option string) (d : string) : string :=
  match o with
  | Some (String c t) => String c t
  | _ => d
  end.

(** [String(n)] for a non-negative integer. *)
Definition decimal (n : N) : string := NilZero.string_of_uint (N.to_uint n).

(** [s.padStart(2, '0')] *)
Definition padStart2 (s : string) : string :=
  match s with
  | EmptyString => "00"
  | String c EmptyString => String "0"%char (String c EmptyString)
  | _ => s
  end.

(** [s.replace(/c/g, r)] for a one-character pattern and a replacement text
    without [$]: every occurrence of [c] in the subject is replaced, the
    replacement itself is not scanned again. *)
Fixpoint replace_all (c : ascii) (r : string) (s : string) : string :=
  match s with
  | EmptyString => EmptyString
  | String a t =>
      if Ascii.eqb a c then r +:+ replace_all c r t
      else String a (replace_all c r t)
  end.

(** ** Utilities of the script *)

(** The five replacements of [escapeHtml], in the order of the script. *)
Definition escape_chain (s : string) : string :=
  replace_all "'"%char "&#039;"
    (replace_all dquote "&quot;"
       (replace_all ">"%char "&gt;"
          (replace_all "<"%char "&lt;"
             (replace_all "&"%char "&amp;" s)))).

(** [escapeHtml(text)] *)
Definition escapeHtml (text : option string) : string :=
  match text with
  | None => EmptyString
  | Some EmptyString => EmptyString
  | Some s => escape_chain s
  end.

(** [x.toFixed(1)] for [x = num / den] with [den] a power of two: the division
    is exact in binary64 for sizes below 2^53, and [toFixed] takes the integer
    [n] nearest to [10 * x], the larger one on a tie. *)
Definition toFixed1 (num den : N) : string :=
  let n := ((20 * num + den) / (2 * den))%N in
  decimal (n / 10) +:+ "." +:+ decimal (n mod 10).

(** [formatBytes(bytes)] *)
Definition formatBytes (bytes : N) : string :=
  if (bytes <? 1024)%N then decimal bytes +:+ " B"
  else if (bytes <? 1024 * 1024)%N then toFixed1 bytes 1024 +:+ " KB"
  else toFixed1 bytes (1024 * 1024) +:+ " MB".

(** ** Upload validation *)

Record File := { file_name : string; file_type : string; file_size : N }.

Definition allowed : list string :=
  ["audio/mpeg"; "audio/wav"; "audio/webm"; "audio/ogg";
   "audio/mp4"; "video/mp4"; "audio/x-m4a"].

(** [allowed.includes(t)] *)
Definition includes (l : list string) (t : string) : bool :=
  existsb (String.eqb t) l.

(** Canonicalisation of a character under the [i] flag (no [u] flag): the
    upper-case form; a non-ASCII character is never mapped to an ASCII one. *)
Definition canonicalize (c : ascii) : ascii :=
  let n := nat_of_ascii c in
  if ((97 <=? n) && (n <=? 122))%nat then ascii_of_nat (n - 32) else c.

(** The subject [s] is exactly the pattern text [p], up to case. *)
Fixpoint ci_eqb (p s : string) : bool :=
  match p, s with
  | EmptyString, EmptyString => true
  | String a p', String b s' =>
      Ascii.eqb (canonicalize a) (canonicalize b) && ci_eqb p' s'
  | _, _ => false
  end.

Definition extensions : list string :=
  ["mp3"; "wav"; "webm"; "ogg"; "m4a"; "mp4"].

(** The pattern [\.(mp3|wav|webm|ogg|m4a|mp4)$] tried at the start of [s]. *)
Definition match_here (s : string) : bool :=
  match s with
  | String c t => Ascii.eqb c "."%char && existsb (fun e => ci_eqb e t) extensions
  | EmptyString => false
  end.

(** [name.match(/\.(mp3|wav|webm|ogg|m4a|mp4)$/i)] is not [null]: the pattern
    is tried at every position of the subject. *)
Fixpoint regex_match (s : string) : bool :=
  match_here s ||
  match s with
  | String _ t => regex_match t
  | EmptyString => false
  end.

(** The guard of [handleFileSelect]: the file is taken unless
    [!allowed.includes(file.type) && !file.name.match(...)]. *)
Definition accepted (f : File) : bool :=
  negb (negb (includes allowed (file_type f)) && negb (regex_match (file_name f))).

(** ** Data model *)

(** [activeMode]: 'upload' or 'record'. *)
Inductive Mode := upload | record.

(** A binary object: its bytes and its media type. *)
Record Blob := { blob_bytes : list Byte.byte; blob_type : string }.

Definition blob_size (b : Blob) : nat := length (blob_bytes b).

(** [new Blob(parts, { type })] *)
Definition new_Blob (parts : list Blob) (type : string) : Blob :=
  {| blob_bytes := concat (map blob_bytes parts); blob_type := type |}.

Record QuizItem := { question : option string; answer : option string }.
Record Flashcard := { front : option string; back : option string }.

(** The JSON object answered by [/transcribe]; [{}] is [empty_payload]. *)
Record Payload := {
  p_success : option bool;
  p_error : option string;
  p_transcript : option string;
  p_summary : option string;
  p_bullets : option (list string);
  p_quiz : option (list QuizItem);
  p_flashcards : option (list Flashcard)
}.

Definition empty_payload : Payload :=
  {| p_success := None; p_error := None; p_transcript := None;
     p_summary := None; p_bullets := None; p_quiz := None;
     p_flashcards := None |}.

(** The stages of the processing overlay, [steps] in the script. *)
Inductive Stage := transcribe | summarize | quiz | flash.

Definition steps : list Stage := [transcribe; summarize; quiz; flash].

(** The class list of one [step-...] element, as far as the script touches
    it: the tokens [active] and [done]. *)
Record StepEl := { cls_active : bool; cls_done : bool }.

(** The four elements [step-transcribe], [step-summarize], [step-quiz] and
    [step-flash]. *)
Record StepEls := {
  step_transcribe : StepEl;
  step_summarize : StepEl;
  step_quiz : StepEl;
  step_flash : StepEl
}.

(** A value that was thrown or that rejected a promise, seen through its
    [message] property ([None] when it has none, as the event a [FileReader]
    rejects with). *)
Record Thrown := { message : option string }.

Definition Error (m : string) : Thrown := {| message := Some m |}.

(** ** The browser objects the script creates *)

Inductive RecorderState := inactive | recording.

(** A [MediaRecorder] with the stream its [onstop] closure releases.
    [rec_stopping] holds between [stop()] and the [stop] event. *)
Record Recorder := {
  rec_state : RecorderState;
  rec_stream : nat;
  rec_stopping : bool
}.

Record ObjectUrl := { url_blob : Blob; url_live : bool }.

Inductive Request :=
| PostTranscribeForm (audio : File)
| PostTranscribeJson (audio_blob : option string)
| PostGeneratePdf (body : Payload).

Record Browser := {
  streams : list bool;          (* microphone streams: are the tracks live *)
  recorders : list Recorder;    (* every MediaRecorder created so far *)
  intervals : list bool;        (* every interval set so far: still running *)
  objectUrls : list ObjectUrl;  (* URL.createObjectURL results *)
  requests : list Request;      (* fetch calls, oldest first *)
  downloads : list (string * nat); (* clicked download links: name, URL *)
  toastTimers : nat             (* pending auto-hide timeouts *)
}.

(** ** Module-level variables *)

Record Vars := {
  mediaRecorder : option nat;
  audioChunks : list Blob;
  recordingTimer : option nat;
  recordingSeconds : N;
  uploadedFile : option File;
  recordedBlob : option Blob;
  activeMode : Mode;
  notesData : Payload
}.

(** ** The page *)

Record TabsDom := {
  activeTabBtn : option Mode;
  activeTabContent : option Mode
}.

Record UploadDom := {
  dropzoneDragover : bool;
  fileInputValue : string;
  filePreviewHidden : bool;
  fileNameDisp : string
}.

Record RecorderDom := {
  recordBtnHidden : bool;
  stopBtnHidden : bool;
  timerEl : string;
  recStatus : string;
  micRecording : bool;
  playbackHidden : bool;
  playbackSrc : option nat
}.

Record GenerateDom := {
  generateDisabled : bool;
  btnTextHidden : bool;
  btnLoaderHidden : bool;
  overlayHidden : bool;
  stepEls : StepEls
}.

Record ResultsDom := {
  resultsHidden : bool;
  transcriptText : string;
  summaryText : string;
  bulletsList : list string;   (* textContent of each li *)
  quizGrid : list string;      (* innerHTML of each div.quiz-item *)
  flashGrid : list string      (* innerHTML of each div.flashcard *)
}.

Record ExportDom := {
  downloadText : string;
  downloadDisabled : bool
}.

Record ToastDom := {
  toastMsg : string;
  toastHidden : bool
}.

Record State := {
  vars : Vars;
  tabs : TabsDom;
  uploadDom : UploadDom;
  recorderDom : RecorderDom;
  generateDom : GenerateDom;
  resultsDom : ResultsDom;
  exportDom : ExportDom;
  toastDom : ToastDom;
  browser : Browser
}.

(** ** Assignments

    One updater per region of the state and one assignment per variable,
    property or class token the script writes.  They are written by case
    on the record, so that a state is never copied while a handler runs. *)

Definition on_vars (f : Vars -> Vars) (s : State) : State :=
  match s with
  | Build_State vars0 tabs0 uploadDom0 recorderDom0 generateDom0 resultsDom0
      exportDom0 toastDom0 browser0 =>
      Build_State (f vars0) tabs0 uploadDom0 recorderDom0 generateDom0
        resultsDom0 exportDom0 toastDom0 browser0
  end.

Definition on_tabs (f : TabsDom -> TabsDom) (s : State) : State :=
  match s with
  | Build_State vars0 tabs0 uploadDom0 recorderDom0 generateDom0 resultsDom0
      exportDom0 toastDom0 browser0 =>
      Build_State vars0 (f tabs0) uploadDom0 recorderDom0 generateDom0
        resultsDom0 exportDom0 toastDom0 browser0
  end.

Definition on_uploadDom (f : UploadDom -> UploadDom) (s : State) : State :=
  match s with
  | Build_State vars0 tabs0 uploadDom0 recorderDom0 generateDom0 resultsDom0
      exportDom0 toastDom0 browser0 =>
      Build_State vars0 tabs0 (f uploadDom0) recorderDom0 generateDom0
        resultsDom0 exportDom0 toastDom0 browser0
  end.

Definition on_recorderDom (f : RecorderDom -> RecorderDom) (s : State) : State :=
  match s with
  | Build_State vars0 tabs0 uploadDom0 recorderDom0 generateDom0 resultsDom0
      exportDom0 toastDom0 browser0 =>
      Build_State vars0 tabs0 uploadDom0 (f recorderDom0) generateDom0
        resultsDom0 exportDom0 toastDom0 browser0
  end.

Definition on_generateDom (f : GenerateDom -> GenerateDom) (s : State) : State :=
  match s with
  | Build_State vars0 tabs0 uploadDom0 recorderDom0 generateDom0 resultsDom0
      exportDom0 toastDom0 browser0 =>
      Build_State vars0 tabs0 uploadDom0 recorderDom0 (f generateDom0)
        resultsDom0 exportDom0 toastDom0 browser0
  end.

Definition on_resultsDom (f : ResultsDom -> ResultsDom) (s : State) : State :=
  match s with
  | Build_State vars0 tabs0 uploadDom0 recorderDom0 generateDom0 resultsDom0
      exportDom0 toastDom0 browser0 =>
      Build_State vars0 tabs0 uploadDom0 recorderDom0 generateDom0
        (f resultsDom0) exportDom0 toastDom0 browser0
  end.

Definition on_exportDom (f : ExportDom -> ExportDom) (s : State) : State :=
  match s with
  | Build_State vars0 tabs0 uploadDom0 recorderDom0 generateDom0 resultsDom0
      exportDom0 toastDom0 browser0 =>
      Build_State vars0 tabs0 uploadDom0 recorderDom0 generateDom0
        resultsDom0 (f exportDom0) toastDom0 browser0
  end.

Definition on_toastDom (f : ToastDom -> ToastDom) (s : State) : State :=
  match s with
  | Build_State vars0 tabs0 uploadDom0 recorderDom0 generateDom0 resultsDom0
      exportDom0 toastDom0 browser0 =>
      Build_State vars0 tabs0 uploadDom0 recorderDom0 generateDom0
        resultsDom0 exportDom0 (f toastDom0) browser0
  end.

Definition on_browser (f : Browser -> Browser) (s : State) : State :=
  match s with
  | Build_State vars0 tabs0 uploadDom0 recorderDom0 generateDom0 resultsDom0
      exportDom0 toastDom0 browser0 =>
      Build_State vars0 tabs0 uploadDom0 recorderDom0 generateDom0
        resultsDom0 exportDom0 toastDom0 (f browser0)
  end.

Definition set_mediaRecorder v :=
  on_vars (fun x =>
    match x with
    | Build_Vars mediaRecorder0 audioChunks0 recordingTimer0
        recordingSeconds0 uploadedFile0 recordedBlob0 activeMode0
        notesData0 =>
        Build_Vars v audioChunks0 recordingTimer0 recordingSeconds0
          uploadedFile0 recordedBlob0 activeMode0 notesData0
    end).

Definition set_audioChunks v :=
  on_vars (fun x =>
    match x with
    | Build_Vars mediaRecorder0 audioChunks0 recordingTimer0
        recordingSeconds0 uploadedFile0 recordedBlob0 activeMode0
        notesData0 =>
        Build_Vars mediaRecorder0 v recordingTimer0 recordingSeconds0
          uploadedFile0 recordedBlob0 activeMode0 notesData0
    end).

Definition set_recordingTimer v :=
  on_vars (fun x =>
    match x with
    | Build_Vars mediaRecorder0 audioChunks0 recordingTimer0
        recordingSeconds0 uploadedFile0 recordedBlob0 activeMode0
        notesData0 =>
        Build_Vars mediaRecorder0 audioChunks0 v recordingSeconds0
          uploadedFile0 recordedBlob0 activeMode0 notesData0
    end).

Definition set_recordingSeconds v :=
  on_vars (fun x =>
    match x with
    | Build_Vars mediaRecorder0 audioChunks0 recordingTimer0
        recordingSeconds0 uploadedFile0 recordedBlob0 activeMode0
        notesData0 =>
        Build_Vars mediaRecorder0 audioChunks0 recordingTimer0 v
          uploadedFile0 recordedBlob0 activeMode0 notesData0
    end).

Definition set_uploadedFile v :=
  on_vars (fun x =>
    match x with
    | Build_Vars mediaRecorder0 audioChunks0 recordingTimer0
        recordingSeconds0 uploadedFile0 recordedBlob0 activeMode0
        notesData0 =>
        Build_Vars mediaRecorder0 audioChunks0 recordingTimer0
          recordingSeconds0 v recordedBlob0 activeMode0 notesData0
    end).

Definition set_recordedBlob v :=
  on_vars (fun x =>
    match x with
    | Build_Vars mediaRecorder0 audioChunks0 recordingTimer0
        recordingSeconds0 uploadedFile0 recordedBlob0 activeMode0
        notesData0 =>
        Build_Vars mediaRecorder0 audioChunks0 recordingTimer0
          recordingSeconds0 uploadedFile0 v activeMode0 notesData0
    end).

Definition set_activeMode v :=
  on_vars (fun x =>
    match x with
    | Build_Vars mediaRecorder0 audioChunks0 recordingTimer0
        recordingSeconds0 uploadedFile0 recordedBlob0 activeMode0
        notesData0 =>
        Build_Vars mediaRecorder0 audioChunks0 recordingTimer0
          recordingSeconds0 uploadedFile0 recordedBlob0 v notesData0
    end).

Definition set_notesData v :=
  on_vars (fun x =>
    match x with
    | Build_Vars mediaRecorder0 audioChunks0 recordingTimer0
        recordingSeconds0 uploadedFile0 recordedBlob0 activeMode0
        notesData0 =>
        Build_Vars mediaRecorder0 audioChunks0 recordingTimer0
          recordingSeconds0 uploadedFile0 recordedBlob0 activeMode0 v
    end).

Definition set_activeTabBtn v :=
  on_tabs (fun x =>
    match x with
    | Build_TabsDom activeTabBtn0 activeTabContent0 =>
        Build_TabsDom v activeTabContent0
    end).

Definition set_activeTabContent v :=
  on_tabs (fun x =>
    match x with
    | Build_TabsDom activeTabBtn0 activeTabContent0 =>
        Build_TabsDom activeTabBtn0 v
    end).

Definition set_dropzoneDragover v :=
  on_uploadDom (fun x =>
    match x with
    | Build_UploadDom dropzoneDragover0 fileInputValue0 filePreviewHidden0
        fileNameDisp0 =>
        Build_UploadDom v fileInputValue0 filePreviewHidden0 fileNameDisp0
    end).

Definition set_fileInputValue v :=
  on_uploadDom (fun x =>
    match x with
    | Build_UploadDom dropzoneDragover0 fileInputValue0 filePreviewHidden0
        fileNameDisp0 =>
        Build_UploadDom dropzoneDragover0 v filePreviewHidden0 fileNameDisp0
    end).

Definition set_filePreviewHidden v :=
  on_uploadDom (fun x =>
    match x with
    | Build_UploadDom dropzoneDragover0 fileInputValue0 filePreviewHidden0
        fileNameDisp0 =>
        Build_UploadDom dropzoneDragover0 fileInputValue0 v fileNameDisp0
    end).

Definition set_fileNameDisp v :=
  on_uploadDom (fun x =>
    match x with
    | Build_UploadDom dropzoneDragover0 fileInputValue0 filePreviewHidden0
        fileNameDisp0 =>
        Build_UploadDom dropzoneDragover0 fileInputValue0 filePreviewHidden0 v
    end).

Definition set_recordBtnHidden v :=
  on_recorderDom (fun x =>
    match x with
    | Build_RecorderDom recordBtnHidden0 stopBtnHidden0 timerEl0 recStatus0
        micRecording0 playbackHidden0 playbackSrc0 =>
        Build_RecorderDom v stopBtnHidden0 timerEl0 recStatus0 micRecording0
          playbackHidden0 playbackSrc0
    end).

Definition set_stopBtnHidden v :=
  on_recorderDom (fun x =>
    match x with
    | Build_RecorderDom recordBtnHidden0 stopBtnHidden0 timerEl0 recStatus0
        micRecording0 playbackHidden0 playbackSrc0 =>
        Build_RecorderDom recordBtnHidden0 v timerEl0 recStatus0
          micRecording0 playbackHidden0 playbackSrc0
    end).

Definition set_timerEl v :=
  on_recorderDom (fun x =>
    match x with
    | Build_RecorderDom recordBtnHidden0 stopBtnHidden0 timerEl0 recStatus0
        micRecording0 playbackHidden0 playbackSrc0 =>
        Build_RecorderDom recordBtnHidden0 stopBtnHidden0 v recStatus0
          micRecording0 playbackHidden0 playbackSrc0
    end).

Definition set_recStatus v :=
  on_recorderDom (fun x =>
    match x with
    | Build_RecorderDom recordBtnHidden0 stopBtnHidden0 timerEl0 recStatus0
        micRecording0 playbackHidden0 playbackSrc0 =>
        Build_RecorderDom recordBtnHidden0 stopBtnHidden0 timerEl0 v
          micRecording0 playbackHidden0 playbackSrc0
    end).

Definition set_micRecording v :=
  on_recorderDom (fun x =>
    match x with
    | Build_RecorderDom recordBtnHidden0 stopBtnHidden0 timerEl0 recStatus0
        micRecording0 playbackHidden0 playbackSrc0 =>
        Build_RecorderDom recordBtnHidden0 stopBtnHidden0 timerEl0 recStatus0
          v playbackHidden0 playbackSrc0
    end).

Definition set_playbackHidden v :=
  on_recorderDom (fun x =>
    match x with
    | Build_RecorderDom recordBtnHidden0 stopBtnHidden0 timerEl0 recStatus0
        micRecording0 playbackHidden0 playbackSrc0 =>
        Build_RecorderDom recordBtnHidden0 stopBtnHidden0 timerEl0 recStatus0
          micRecording0 v playbackSrc0
    end).

Definition set_playbackSrc v :=
  on_recorderDom (fun x =>
    match x with
    | Build_RecorderDom recordBtnHidden0 stopBtnHidden0 timerEl0 recStatus0
        micRecording0 playbackHidden0 playbackSrc0 =>
        Build_RecorderDom recordBtnHidden0 stopBtnHidden0 timerEl0 recStatus0
          micRecording0 playbackHidden0 v
    end).

Definition set_generateDisabled v :=
  on_generateDom (fun x =>
    match x with
    | Build_GenerateDom generateDisabled0 btnTextHidden0 btnLoaderHidden0
        overlayHidden0 stepEls0 =>
        Build_GenerateDom v btnTextHidden0 btnLoaderHidden0 overlayHidden0
          stepEls0
    end).

Definition set_btnTextHidden v :=
  on_generateDom (fun x =>
    match x with
    | Build_GenerateDom generateDisabled0 btnTextHidden0 btnLoaderHidden0
        overlayHidden0 stepEls0 =>
        Build_GenerateDom generateDisabled0 v btnLoaderHidden0 overlayHidden0
          stepEls0
    end).

Definition set_btnLoaderHidden v :=
  on_generateDom (fun x =>
    match x with
    | Build_GenerateDom generateDisabled0 btnTextHidden0 btnLoaderHidden0
        overlayHidden0 stepEls0 =>
        Build_GenerateDom generateDisabled0 btnTextHidden0 v overlayHidden0
          stepEls0
    end).

Definition set_overlayHidden v :=
  on_generateDom (fun x =>
    match x with
    | Build_GenerateDom generateDisabled0 btnTextHidden0 btnLoaderHidden0
        overlayHidden0 stepEls0 =>
        Build_GenerateDom generateDisabled0 btnTextHidden0 btnLoaderHidden0 v
          stepEls0
    end).

Definition set_stepEls v :=
  on_generateDom (fun x =>
    match x with
    | Build_GenerateDom generateDisabled0 btnTextHidden0 btnLoaderHidden0
        overlayHidden0 stepEls0 =>
        Build_GenerateDom generateDisabled0 btnTextHidden0 btnLoaderHidden0
          overlayHidden0 v
    end).

Definition set_resultsHidden v :=
  on_resultsDom (fun x =>
    match x with
    | Build_ResultsDom resultsHidden0 transcriptText0 summaryText0
        bulletsList0 quizGrid0 flashGrid0 =>
        Build_ResultsDom v transcriptText0 summaryText0 bulletsList0
          quizGrid0 flashGrid0
    end).

Definition set_transcriptText v :=
  on_resultsDom (fun x =>
    match x with
    | Build_ResultsDom resultsHidden0 transcriptText0 summaryText0
        bulletsList0 quizGrid0 flashGrid0 =>
        Build_ResultsDom resultsHidden0 v summaryText0 bulletsList0 quizGrid0
          flashGrid0
    end).

Definition set_summaryText v :=
  on_resultsDom (fun x =>
    match x with
    | Build_ResultsDom resultsHidden0 transcriptText0 summaryText0
        bulletsList0 quizGrid0 flashGrid0 =>
        Build_ResultsDom resultsHidden0 transcriptText0 v bulletsList0
          quizGrid0 flashGrid0
    end).

Definition set_bulletsList v :=
  on_resultsDom (fun x =>
    match x with
    | Build_ResultsDom resultsHidden0 transcriptText0 summaryText0
        bulletsList0 quizGrid0 flashGrid0 =>
        Build_ResultsDom resultsHidden0 transcriptText0 summaryText0 v
          quizGrid0 flashGrid0
    end).

Definition set_quizGrid v :=
  on_resultsDom (fun x =>
    match x with
    | Build_ResultsDom resultsHidden0 transcriptText0 summaryText0
        bulletsList0 quizGrid0 flashGrid0 =>
        Build_ResultsDom resultsHidden0 transcriptText0 summaryText0
          bulletsList0 v flashGrid0
    end).

Definition set_flashGrid v :=
  on_resultsDom (fun x =>
    match x with
    | Build_ResultsDom resultsHidden0 transcriptText0 summaryText0
        bulletsList0 quizGrid0 flashGrid0 =>
        Build_ResultsDom resultsHidden0 transcriptText0 summaryText0
          bulletsList0 quizGrid0 v
    end).

Definition set_downloadText v :=
  on_exportDom (fun x =>
    match x with
    | Build_ExportDom downloadText0 downloadDisabled0 =>
        Build_ExportDom v downloadDisabled0
    end).

Definition set_downloadDisabled v :=
  on_exportDom (fun x =>
    match x with
    | Build_ExportDom downloadText0 downloadDisabled0 =>
        Build_ExportDom downloadText0 v
    end).

Definition set_toastMsg v :=
  on_toastDom (fun x =>
    match x with
    | Build_ToastDom toastMsg0 toastHidden0 =>
        Build_ToastDom v toastHidden0
    end).

Definition set_toastHidden v :=
  on_toastDom (fun x =>
    match x with
    | Build_ToastDom toastMsg0 toastHidden0 =>
        Build_ToastDom toastMsg0 v
    end).

Definition set_streams v :=
  on_browser (fun x =>
    match x with
    | Build_Browser streams0 recorders0 intervals0 objectUrls0 requests0
        downloads0 toastTimers0 =>
        Build_Browser v recorders0 intervals0 objectUrls0 requests0
          downloads0 toastTimers0
    end).

Definition set_recorders v :=
  on_browser (fun x =>
    match x with
    | Build_Browser streams0 recorders0 intervals0 objectUrls0 requests0
        downloads0 toastTimers0 =>
        Build_Browser streams0 v intervals0 objectUrls0 requests0 downloads0
          toastTimers0
    end).

Definition set_intervals v :=
  on_browser (fun x =>
    match x with
    | Build_Browser streams0 recorders0 intervals0 objectUrls0 requests0
        downloads0 toastTimers0 =>
        Build_Browser streams0 recorders0 v objectUrls0 requests0 downloads0
          toastTimers0
    end).

Definition set_objectUrls v :=
  on_browser (fun x =>
    match x with
    | Build_Browser streams0 recorders0 intervals0 objectUrls0 requests0
        downloads0 toastTimers0 =>
        Build_Browser streams0 recorders0 intervals0 v requests0 downloads0
          toastTimers0
    end).

Definition set_requests v :=
  on_browser (fun x =>
    match x with
    | Build_Browser streams0 recorders0 intervals0 objectUrls0 requests0
        downloads0 toastTimers0 =>
        Build_Browser streams0 recorders0 intervals0 objectUrls0 v downloads0
          toastTimers0
    end).

Definition set_downloads v :=
  on_browser (fun x =>
    match x with
    | Build_Browser streams0 recorders0 intervals0 objectUrls0 requests0
        downloads0 toastTimers0 =>
        Build_Browser streams0 recorders0 intervals0 objectUrls0 requests0 v
          toastTimers0
    end).

Definition set_toastTimers v :=
  on_browser (fun x =>
    match x with
    | Build_Browser streams0 recorders0 intervals0 objectUrls0 requests0
        downloads0 toastTimers0 =>
        Build_Browser streams0 recorders0 intervals0 objectUrls0 requests0
          downloads0 v
    end).

(** Statements in sequence. *)
Definition andThen (f g : State -> State) : State -> State := fun s => g (f s).
Infix ">>>" := andThen (at level 57, left associativity).

Definition skip : State -> State := fun s => s.

(** [l.forEach(x => f(x))] and [l.forEach((x, i) => f(x, i))] *)
Definition forEach {A} (f : A -> State -> State) (l : list A) : State -> State :=
  fun s => fold_left (fun acc x => f x acc) l s.

Definition forEach_i {A} (f : A -> nat -> State -> State) (l : list A)
  : State -> State :=
  fun s => fold_left (fun acc ix => f (snd ix) (fst ix) acc) (imap pair l) s.

#[global] Instance Mode_eq_dec : EqDecision Mode.
Proof. solve_decision. Defined.

#[global] Instance Stage_eq_dec : EqDecision Stage.
Proof. solve_decision. Defined.

#[global] Instance RecorderState_eq_dec : EqDecision RecorderState.
Proof. solve_decision. Defined.

Definition is_some {A} (o : option A) : bool :=
  match o with Some _ => true | None => false end.

(** ** Generate button state *)

(** [updateGenerateBtn()] *)
Definition updateGenerateBtn (s : State) : State :=
  let hasUpload :=
    bool_decide (activeMode (vars s) = upload) && is_some (uploadedFile (vars s)) in
  let hasRecord :=
    bool_decide (activeMode (vars s) = record) && is_some (recordedBlob (vars s)) in
  set_generateDisabled (negb (hasUpload || hasRecord)) s.

(** ** Error toast *)

(** [showError(message)]: a [textContent] set to [undefined] is emptied. *)
Definition showError (msg : option string) : State -> State :=
  set_toastMsg (default EmptyString msg)
  >>> set_toastHidden false
  >>> (fun s => set_toastTimers (S (toastTimers (browser s))) s).

(** The auto-hide timeout of a toast fires. *)
Definition toast_timeout : State -> State :=
  set_toastHidden true
  >>> (fun s => set_toastTimers (pred (toastTimers (browser s))) s).

(** Click on the close button of the toast. *)
Definition toastClose_click : State -> State := set_toastHidden true.

(** ** Tab switching *)

(** Click on the tab button whose [data-tab] is [m]. *)
Definition tab_click (m : Mode) : State -> State :=
  set_activeTabBtn None
  >>> set_activeTabContent None
  >>> set_activeTabBtn (Some m)
  >>> set_activeMode m
  >>> set_activeTabContent (Some m)
  >>> updateGenerateBtn.

(** ** Upload *)

(** [handleFileSelect(file)] *)
Definition handleFileSelect (file : File) : State -> State :=
  if negb (includes allowed (file_type file)) && negb (regex_match (file_name file))
  then showError (Some "Please upload an audio file (MP3, WAV, WebM, OGG, M4A)")
  else
    set_uploadedFile (Some file)
    >>> set_fileNameDisp
          ("📎 " +:+ file_name file +:+ " (" +:+ formatBytes (file_size file) +:+ ")")
    >>> set_filePreviewHidden false
    >>> updateGenerateBtn.

Definition dropzone_dragover : State -> State := set_dropzoneDragover true.
Definition dropzone_dragleave : State -> State := set_dropzoneDragover false.

(** [drop] on the drop zone; [file] is [e.dataTransfer.files[0]]. *)
Definition dropzone_drop (file : option File) : State -> State :=
  set_dropzoneDragover false
  >>> match file with Some f => handleFileSelect f | None => skip end.

(** [change] on the file input, after the browser stored the chosen path in
    its value; [file] is [fileInput.files[0]]. *)
Definition fileInput_change (value : string) (file : option File) : State -> State :=
  set_fileInputValue value
  >>> match file with Some f => handleFileSelect f | None => skip end.

(** Click on the remove-file button. *)
Definition removeFile_click : State -> State :=
  set_uploadedFile None
  >>> set_fileInputValue EmptyString
  >>> set_filePreviewHidden true
  >>> updateGenerateBtn.

(** ** Processing overlay *)

Definition get_step (st : Stage) (e : StepEls) : StepEl :=
  match st with
  | transcribe => step_transcribe e
  | summarize => step_summarize e
  | quiz => step_quiz e
  | flash => step_flash e
  end.

Definition put_step (st : Stage) (v : StepEl) (e : StepEls) : StepEls :=
  match st with
  | transcribe =>
      {| step_transcribe := v; step_summarize := step_summarize e;
         step_quiz := step_quiz e; step_flash := step_flash e |}
  | summarize =>
      {| step_transcribe := step_transcribe e; step_summarize := v;
         step_quiz := step_quiz e; step_flash := step_flash e |}
  | quiz =>
      {| step_transcribe := step_transcribe e; step_summarize := step_summarize e;
         step_quiz := v; step_flash := step_flash e |}
  | flash =>
      {| step_transcribe := step_transcribe e; step_summarize := step_summarize e;
         step_quiz := step_quiz e; step_flash := v |}
  end.

(** An operation on the class list of [document.getElementById(`step-${st}`)]. *)
Definition on_step (st : Stage) (f : StepEl -> StepEl) (s : State) : State :=
  set_stepEls (put_step st (f (get_step st (stepEls (generateDom s))))
                 (stepEls (generateDom s))) s.

(** [el.classList.remove('active', 'done')] *)
Definition remove_active_done (_ : StepEl) : StepEl :=
  {| cls_active := false; cls_done := false |}.

(** [el.classList.add('done')] and [el.classList.add('active')] *)
Definition add_done (e : StepEl) : StepEl :=
  {| cls_active := cls_active e; cls_done := true |}.
Definition add_active (e : StepEl) : StepEl :=
  {| cls_active := true; cls_done := cls_done e |}.

(** [steps.indexOf(x)], [-1] when absent. *)
Definition indexOf (l : list Stage) (x : Stage) : Z :=
  match list_find (fun y => y = x) l with
  | Some (i, _) => Z.of_nat i
  | None => (-1)%Z
  end.

(** [showProcessingOverlay()] *)
Definition showProcessingOverlay : State -> State :=
  set_overlayHidden false
  >>> forEach (fun st => on_step st remove_active_done) steps.

(** [hideProcessingOverlay()] *)
Definition hideProcessingOverlay : State -> State := set_overlayHidden true.

(** [setStep(currentStep)] *)
Definition setStep (currentStep : Stage) : State -> State :=
  let idx := indexOf steps currentStep in
  forEach_i (fun st i =>
    on_step st remove_active_done
    >>> (if (Z.of_nat i <? idx)%Z then on_step st add_done
         else if (Z.of_nat i =? idx)%Z then on_step st add_active
         else skip)) steps.

(** [setLoading(isLoading)] *)
Definition setLoading (isLoading : bool) : State -> State :=
  set_generateDisabled isLoading
  >>> set_btnTextHidden isLoading
  >>> set_btnLoaderHidden (negb isLoading).

(** ** Asynchronous handlers

    A run of a handler from a state: the value it completes with or the
    value it threw, the state it leaves, and the states the page showed at
    each suspension ([await], [setTimeout]), oldest first. *)
Record Run (A : Type) := MkRun {
  run_val : Thrown + A;
  run_state : State;
  run_frames : list State
}.
Arguments MkRun {A} _ _ _.
Arguments run_val {A} _.
Arguments run_state {A} _.
Arguments run_frames {A} _.

Definition Js (A : Type) : Type := State -> Run A.

#[global] Instance Js_ret : MRet Js := fun A a s => MkRun (inr a) s [].

#[global] Instance Js_bind : MBind Js := fun A B k m s =>
  match m s with
  | MkRun (inl e) s1 frames1 => MkRun (inl e) s1 frames1
  | MkRun (inr a) s1 frames1 =>
      match k a s1 with
      | MkRun v s2 frames2 => MkRun v s2 (frames1 ++ frames2)
      end
  end.

Definition throw {A} (e : Thrown) : Js A := fun s => MkRun (inl e) s [].
Definition exec (f : State -> State) : Js unit := fun s => MkRun (inr tt) (f s) [].
Definition read : Js State := fun s => MkRun (inr s) s [].

(** The handler is suspended; the page shows the current state. *)
Definition yield : Js unit := fun s => MkRun (inr tt) s [s].

(** [await p] for a promise that settles as [r]. *)
Definition await {A} (r : Thrown + A) : Js A :=
  yield;; match r with inl e => throw e | inr a => mret a end.

(** [try { m } catch (err) { h err }] *)
Definition try_catch {A} (m : Js A) (h : Thrown -> Js A) : Js A := fun s =>
  match m s with
  | MkRun (inl e) s1 frames1 =>
      match h e s1 with
      | MkRun v s2 frames2 => MkRun v s2 (frames1 ++ frames2)
      end
  | MkRun (inr a) s1 frames1 => MkRun (inr a) s1 frames1
  end.

(** [try { m } finally { f }] *)
Definition finally {A} (m : Js A) (f : Js unit) : Js A := fun s =>
  match m s with
  | MkRun v s1 frames1 =>
      match f s1 with
      | MkRun (inl e) s2 frames2 => MkRun (inl e) s2 (frames1 ++ frames2)
      | MkRun (inr _) s2 frames2 => MkRun v s2 (frames1 ++ frames2)
      end
  end.

(** The states the page shows during a run and at its end. *)
Definition moments {A} (r : Run A) : list State := run_frames r ++ [run_state r].

(** ** Microphone recording *)

(** What the browser answers to [startRecording]: [getUserMedia] rejects, or
    it resolves with a stream and the [MediaRecorder] constructor accepts or
    refuses the type 'audio/webm'. *)
Inductive MicOutcome :=
| MicDenied (err : Thrown)
| MicGranted (webmSupported : bool) (unsupported : Thrown).

(** [await navigator.mediaDevices.getUserMedia({ audio: true })] *)
Definition getUserMedia (o : MicOutcome) : Js nat :=
  yield;;
  match o with
  | MicDenied err => throw err
  | MicGranted _ _ =>
      s ← read;
      exec (set_streams (streams (browser s) ++ [true]));;
      mret (length (streams (browser s)))
  end.

(** [new MediaRecorder(stream, { mimeType: 'audio/webm' })] *)
Definition new_MediaRecorder (o : MicOutcome) (stream : nat) : Js nat :=
  match o with
  | MicGranted false err => throw err
  | _ =>
      s ← read;
      exec (set_recorders
              (recorders (browser s) ++
               [{| rec_state := inactive; rec_stream := stream;
                   rec_stopping := false |}]));;
      mret (length (recorders (browser s)))
  end.

(** An operation on the recorder [id]. *)
Definition on_recorder (id : nat) (f : Recorder -> Recorder) (s : State) : State :=
  set_recorders (alter f id (recorders (browser s))) s.

(** [rec.state !== 'inactive'] *)
Definition recorder_active (id : nat) (s : State) : bool :=
  match recorders (browser s) !! id with
  | Some r => bool_decide (rec_state r <> inactive)
  | None => false
  end.

(** [rec.start(1000)] *)
Definition recorder_start (id : nat) : State -> State :=
  on_recorder id (fun r =>
    {| rec_state := recording; rec_stream := rec_stream r;
       rec_stopping := rec_stopping r |}).

(** [rec.stop()]: the recorder is inactive at once, its last
    [dataavailable] event and its [stop] event follow. *)
Definition recorder_stop (id : nat) : State -> State :=
  on_recorder id (fun r =>
    {| rec_state := inactive; rec_stream := rec_stream r;
       rec_stopping := true |}).

(** [setInterval(callback, 1000)] *)
Definition setInterval : Js nat :=
  s ← read;
  exec (set_intervals (intervals (browser s) ++ [true]));;
  mret (length (intervals (browser s))).

(** [clearInterval(id)]; clearing [null] does nothing. *)
Definition clearInterval (id : option nat) (s : State) : State :=
  match id with
  | Some i => set_intervals (<[i := false]> (intervals (browser s))) s
  | None => s
  end.

(** [URL.createObjectURL(blob)] *)
Definition createObjectURL (b : Blob) : Js nat :=
  s ← read;
  exec (set_objectUrls
          (objectUrls (browser s) ++ [{| url_blob := b; url_live := true |}]));;
  mret (length (objectUrls (browser s))).

(** [URL.revokeObjectURL(url)] *)
Definition revokeObjectURL (url : nat) (s : State) : State :=
  set_objectUrls
    (alter (fun u => {| url_blob := url_blob u; url_live := false |}) url
       (objectUrls (browser s))) s.

(** [stream.getTracks().forEach(t => t.stop())] *)
Definition stop_tracks (stream : nat) (s : State) : State :=
  set_streams (<[stream := false]> (streams (browser s))) s.

(** [startRecording()] *)
Definition startRecording (o : MicOutcome) : Js unit :=
  try_catch
    (stream ← getUserMedia o;
     exec (set_audioChunks []
           >>> set_recordedBlob None
           >>> set_recordingSeconds 0%N
           >>> set_timerEl "00:00"
           >>> set_playbackHidden true
           >>> set_playbackSrc None);;
     rec ← new_MediaRecorder o stream;
     exec (set_mediaRecorder (Some rec));;
     exec (recorder_start rec);;
     exec (set_recordBtnHidden true
           >>> set_stopBtnHidden false
           >>> set_micRecording true
           >>> set_recStatus "🔴 Recording in progress...");;
     timer ← setInterval;
     exec (set_recordingTimer (Some timer)))
    (fun err =>
       exec (showError (Some
         "Microphone access denied. Please allow microphone permission in your browser."))).

(** [mediaRecorder.ondataavailable] *)
Definition ondataavailable (data : Blob) (s : State) : State :=
  if (0 <? blob_size data)%nat
  then set_audioChunks (audioChunks (vars s) ++ [data]) s
  else s.

(** [mediaRecorder.onstop], for the recorder whose closure holds [stream]. *)
Definition onstop (stream : nat) : Js unit :=
  s ← read;
  let blob := new_Blob (audioChunks (vars s)) "audio/webm" in
  exec (set_recordedBlob (Some blob));;
  audioURL ← createObjectURL blob;
  exec (set_playbackSrc (Some audioURL));;
  exec (set_playbackHidden false);;
  exec (stop_tracks stream);;
  exec updateGenerateBtn.

(** The interval callback of the recording timer. *)
Definition timer_callback (s : State) : State :=
  let secs := (recordingSeconds (vars s) + 1)%N in
  let m := padStart2 (decimal (secs / 60)) in
  let sec := padStart2 (decimal (secs mod 60)) in
  (set_recordingSeconds secs >>> set_timerEl (m +:+ ":" +:+ sec)) s.

(** [stopRecording()] *)
Definition stopRecording : State -> State :=
  (fun s =>
     match mediaRecorder (vars s) with
     | Some id => if recorder_active id s then recorder_stop id s else s
     | None => s
     end)
  >>> (fun s => clearInterval (recordingTimer (vars s)) s)
  >>> set_recordBtnHidden false
  >>> set_stopBtnHidden true
  >>> set_micRecording false
  >>> set_recStatus "✅ Recording saved! Preview below.".

(** ** Display of the results *)

(** [<name class="cls">] *)
Definition open_tag (name cls : string) : string :=
  "<" +:+ name +:+ " class=" +:+ q +:+ cls +:+ q +:+ ">".

(** The template assigned to the [innerHTML] of the [i]-th quiz item. *)
Definition quiz_item_html (i : nat) (item : QuizItem) : string :=
  nl +:+ "      " +:+ open_tag "div" "quiz-number"
     +:+ "Question " +:+ decimal (N.of_nat i + 1) +:+ "</div>"
  +:+ nl +:+ "      " +:+ open_tag "div" "quiz-question"
     +:+ escapeHtml (question item) +:+ "</div>"
  +:+ nl +:+ "      <button class=" +:+ q +:+ "quiz-answer-toggle" +:+ q
     +:+ " onclick=" +:+ q +:+ "toggleAnswer(this)" +:+ q +:+ ">"
     +:+ "👁 Reveal Answer</button>"
  +:+ nl +:+ "      " +:+ open_tag "div" "quiz-answer"
     +:+ escapeHtml (answer item) +:+ "</div>"
  +:+ nl +:+ "    ".

(** The template assigned to the [innerHTML] of a flashcard. *)
Definition flashcard_html (card : Flashcard) : string :=
  nl +:+ "      " +:+ open_tag "div" "flashcard-inner"
  +:+ nl +:+ "        " +:+ open_tag "div" "flashcard-front"
     +:+ escapeHtml (front card) +:+ "</div>"
  +:+ nl +:+ "        " +:+ open_tag "div" "flashcard-back"
     +:+ escapeHtml (back card) +:+ "</div>"
  +:+ nl +:+ "      </div>"
  +:+ nl +:+ "    ".

(** [displayResults(data)] *)
Definition displayResults (data : Payload) : State -> State :=
  set_resultsHidden false
  >>> set_transcriptText (js_or (p_transcript data) "Transcript not available.")
  >>> set_summaryText (js_or (p_summary data) "Summary not available.")
  >>> set_bulletsList []
  >>> forEach (fun point s =>
                 set_bulletsList (bulletsList (resultsDom s) ++ [point]) s)
              (default [] (p_bullets data))
  >>> set_quizGrid []
  >>> forEach_i (fun item i s =>
                   set_quizGrid (quizGrid (resultsDom s) ++ [quiz_item_html i item]) s)
                (default [] (p_quiz data))
  >>> set_flashGrid []
  >>> forEach (fun card s =>
                 set_flashGrid (flashGrid (resultsDom s) ++ [flashcard_html card]) s)
              (default [] (p_flashcards data)).

(** ** Generation *)

(** An answer of [fetch('/transcribe')]: [response.ok], [response.status]
    and what [response.json()] settles as ([None] is the JSON value
    [null]). *)
Record Response := {
  resp_ok : bool;
  resp_status : N;
  resp_json : Thrown + option Payload
}.

(** What the browser and the server answer during one generation. *)
Record GenerateEnv := {
  readAsDataURL : Thrown + string;      (* the FileReader result or failure *)
  fetch_transcribe : Thrown + Response;
  ok_of_undefined : Thrown;             (* reading [.ok] of [undefined] *)
  property_of_null : Thrown             (* reading a property of [null] *)
}.

Fixpoint until_comma (s : string) : string :=
  match s with
  | EmptyString => EmptyString
  | String c t => if Ascii.eqb c ","%char then EmptyString else String c (until_comma t)
  end.

(** [s.split(',')[1]] *)
Fixpoint split_comma_1 (s : string) : option string :=
  match s with
  | EmptyString => None
  | String c t => if Ascii.eqb c ","%char then Some (until_comma t) else split_comma_1 t
  end.

(** [await blobToBase64(blob)] *)
Definition blobToBase64 (env : GenerateEnv) (blob : Blob) : Js (option string) :=
  result ← await (readAsDataURL env);
  mret (split_comma_1 result).

(** [await fetch(url, { method: 'POST', body })] answered by [r]. *)
Definition fetch {A} (req : Request) (r : Thrown + A) : Js A :=
  s ← read;
  exec (set_requests (requests (browser s) ++ [req]));;
  await r.

(** The body of the [try] block of the generate handler; it completes with
    the payload the two timeouts go on with. *)
Definition generate_try (env : GenerateEnv) : Js Payload :=
  s ← read;
  response ←
    match activeMode (vars s), uploadedFile (vars s), recordedBlob (vars s) with
    | upload, Some file, _ =>
        exec (setStep transcribe);;
        r ← fetch (PostTranscribeForm file) (fetch_transcribe env);
        mret (Some r)
    | record, _, Some blob =>
        base64 ← blobToBase64 env blob;
        exec (setStep transcribe);;
        r ← fetch (PostTranscribeJson base64) (fetch_transcribe env);
        mret (Some r)
    | _, _, _ => mret None
    end;
  match response with
  | None => throw (ok_of_undefined env)
  | Some response =>
      if negb (resp_ok response) then
        err ← await (resp_json response);
        match err with
        | None => throw (property_of_null env)
        | Some err =>
            throw (Error (js_or (p_error err)
                            ("HTTP " +:+ decimal (resp_status response))))
        end
      else
        exec (setStep summarize);;
        data ← await (resp_json response);
        match data with
        | None => throw (property_of_null env)
        | Some data =>
            if negb (default false (p_success data))
            then throw (Error (js_or (p_error data) "Unknown error"))
            else
              exec (setStep quiz);;
              exec (set_notesData data);;
              mret data
        end
  end.

(** Click on the generate button. *)
Definition generate_click (env : GenerateEnv) : Js unit :=
  exec (setLoading true);;
  exec showProcessingOverlay;;
  scheduled ←
    try_catch
      (data ← generate_try env; mret (Some data))
      (fun err =>
         exec hideProcessingOverlay;;
         exec (setLoading false);;
         exec (showError (message err));;
         mret None);
  match scheduled with
  | None => mret tt
  | Some data =>
      yield;;                       (* setTimeout(..., 600) *)
      exec (setStep flash);;
      yield;;                       (* setTimeout(..., 600) *)
      exec hideProcessingOverlay;;
      exec (setLoading false);;
      exec (displayResults data)
  end.

(** ** PDF download *)

(** An answer of [fetch('/generate-pdf')]: [response.ok] and what
    [response.blob()] settles as. *)
Record PdfResponse := {
  pdf_ok : bool;
  pdf_blob : Thrown + Blob
}.

(** [a.href = url; a.download = name; a.click()] *)
Definition click_download (name : string) (url : nat) (s : State) : State :=
  set_downloads (downloads (browser s) ++ [(name, url)]) s.

(** Click on the download button, the request being answered by
    [fetch_pdf]. *)
Definition download_click (fetch_pdf : Thrown + PdfResponse) : Js unit :=
  finally
    (try_catch
       (exec (set_downloadText "⏳ Generating PDF...");;
        exec (set_downloadDisabled true);;
        s ← read;
        response ← fetch (PostGeneratePdf (notesData (vars s))) fetch_pdf;
        if negb (pdf_ok response) then throw (Error "PDF generation failed")
        else
          blob ← await (pdf_blob response);
          url ← createObjectURL blob;
          exec (click_download "lecture_notes.pdf" url);;
          exec (revokeObjectURL url))
       (fun err =>
          exec (showError
                  (Some ("Failed to generate PDF: "
                         +:+ default "undefined" (message err))))))
    (exec (set_downloadText "⬇️ Download PDF");;
     exec (set_downloadDisabled false)).

(** ** Events *)

(** What can happen to the page: the user's gestures, with the answers of
    the browser and of the server where the handler waits for them, and the
    events of the objects the script created. *)
Inductive Event :=
| TabClick (m : Mode)
| DragOver
| DragLeave
| Drop (file : option File)
| FileInputChange (value : string) (file : option File)
| RemoveFileClick
| RecordClick (o : MicOutcome)
| StopClick
| DataAvailable (id : nat) (data : Blob)
| RecorderStopped (id : nat)
| IntervalTick (id : nat)
| GenerateClick (env : GenerateEnv)
| DownloadClick (fetch_pdf : Thrown + PdfResponse)
| ToastTimeout
| ToastCloseClick.

(** The state after an event was handled.  An event of a recorder or of an
    interval only occurs while the browser can raise it: data while the
    recorder records or is stopping, [stop] once after [stop()], a tick while
    the interval is not cleared. *)
Definition handle (e : Event) (s : State) : State :=
  match e with
  | TabClick m => tab_click m s
  | DragOver => dropzone_dragover s
  | DragLeave => dropzone_dragleave s
  | Drop file => dropzone_drop file s
  | FileInputChange value file => fileInput_change value file s
  | RemoveFileClick => removeFile_click s
  | RecordClick o => run_state (startRecording o s)
  | StopClick => stopRecording s
  | DataAvailable id data =>
      match recorders (browser s) !! id with
      | Some r =>
          if bool_decide (rec_state r = recording) || rec_stopping r
          then ondataavailable data s else s
      | None => s
      end
  | RecorderStopped id =>
      match recorders (browser s) !! id with
      | Some r =>
          if rec_stopping r
          then run_state
                 (onstop (rec_stream r)
                    (on_recorder id (fun r =>
                       {| rec_state := rec_state r; rec_stream := rec_stream r;
                          rec_stopping := false |}) s))
          else s
      | None => s
      end
  | IntervalTick id =>
      match intervals (browser s) !! id with
      | Some true => timer_callback s
      | _ => s
      end
  | GenerateClick env => run_state (generate_click env s)
  | DownloadClick fetch_pdf => run_state (download_click fetch_pdf s)
  | ToastTimeout =>
      match toastTimers (browser s) with
      | O => s
      | S _ => toast_timeout s
      end
  | ToastCloseClick => toastClose_click s
  end.

Definition handle_all (es : list Event) (s : State) : State :=
  fold_left (fun acc e => handle e acc) es s.

(** ** Loading the script *)

Definition initial_vars : Vars :=
  {| mediaRecorder := None; audioChunks := []; recordingTimer := None;
     recordingSeconds := 0%N; uploadedFile := None; recordedBlob := None;
     activeMode := upload; notesData := empty_payload |}.

Definition initial_browser : Browser :=
  {| streams := []; recorders := []; intervals := []; objectUrls := [];
     requests := []; downloads := []; toastTimers := 0 |}.

(** The state once the script has run over a page: the markup gives the
    page regions, the declarations give the variables. *)
Definition load (page : State) : State :=
  on_browser (fun _ => initial_browser) (on_vars (fun _ => initial_vars) page).

Definition pending_el : StepEl := {| cls_active := false; cls_done := false |}.
Definition done_el : StepEl := {| cls_active := false; cls_done := true |}.
Definition active_el : StepEl := {| cls_active := true; cls_done := false |}.

(** Modelled from the spec: the markup of the page (templates/index.html) is
    not among the sources.  This is a page in the idle state the spec
    describes: upload tab shown, nothing selected, recorder idle at 00:00,
    generate disabled, overlay, results and toast hidden, the export trigger
    at its idle label.  Only the closed examples use it; the general results
    hold for every page. *)
Definition index_page : State :=
  {| vars := initial_vars;
     tabs := {| activeTabBtn := Some upload; activeTabContent := Some upload |};
     uploadDom :=
       {| dropzoneDragover := false; fileInputValue := EmptyString;
          filePreviewHidden := true; fileNameDisp := EmptyString |};
     recorderDom :=
       {| recordBtnHidden := false; stopBtnHidden := true; timerEl := "00:00";
          recStatus := EmptyString; micRecording := false;
          playbackHidden := true; playbackSrc := None |};
     generateDom :=
       {| generateDisabled := true; btnTextHidden := false;
          btnLoaderHidden := true; overlayHidden := true;
          stepEls :=
            {| step_transcribe := pending_el; step_summarize := pending_el;
               step_quiz := pending_el; step_flash := pending_el |} |};
     resultsDom :=
       {| resultsHidden := true; transcriptText := EmptyString;
          summaryText := EmptyString; bulletsList := []; quizGrid := [];
          flashGrid := [] |};
     exportDom := {| downloadText := "⬇️ Download PDF"; downloadDisabled := false |};
     toastDom := {| toastMsg := EmptyString; toastHidden := true |};
     browser := initial_browser |}.

(** ** User-level actions

    The actions the generate gate is specified over.  Stopping a recording is
    the click on the stop button followed by the two events the stopped
    recorder then raises: its last data and [stop]. *)
Inductive Action :=
| switch_tab (m : Mode)
| select_upload (file : File)
| clear_upload
| record_start (o : MicOutcome)
| record_stop (last : Blob).

Definition perform (a : Action) (s : State) : State :=
  match a with
  | switch_tab m => handle (TabClick m) s
  | select_upload file => handle (Drop (Some file)) s
  | clear_upload => handle RemoveFileClick s
  | record_start o => handle (RecordClick o) s
  | record_stop last =>
      let s1 := handle StopClick s in
      match mediaRecorder (vars s1) with
      | Some id => handle (RecorderStopped id) (handle (DataAvailable id last) s1)
      | None => s1
      end
  end.

Definition perform_all (acts : list Action) (s : State) : State :=
  fold_left (fun acc a => perform a acc) acts s.

(** ** Notions of the specification *)

(** The entity equivalent of a character. *)
Definition entity (c : ascii) : string :=
  if Ascii.eqb c "&"%char then "&amp;"
  else if Ascii.eqb c "<"%char then "&lt;"
  else if Ascii.eqb c ">"%char then "&gt;"
  else if Ascii.eqb c dquote then "&quot;"
  else if Ascii.eqb c "'"%char then "&#039;"
  else String c EmptyString.

(** Every character replaced by its entity equivalent. *)
Fixpoint substitute_entities (s : string) : string :=
  match s with
  | EmptyString => EmptyString
  | String c t => entity c +:+ substitute_entities t
  end.




Definition to_lower (c : ascii) : ascii :=
  let n := nat_of_ascii c in
  if ((65 <=? n) && (n <=? 90))%nat then ascii_of_nat (n + 32) else c.

Fixpoint lowercase (s : string) : string :=
  match s with
  | EmptyString => EmptyString
  | String c t => String (to_lower c) (lowercase t)
  end.

(** The accepted extensions, as the specification lists them. *)
Definition allowed_extensions : list string :=
  [".mp3"; ".wav"; ".webm"; ".ogg"; ".m4a"; ".mp4"].

(** [name] ends with [ext], case-insensitively. *)
Definition ends_with_ci (name ext : string) : Prop :=
  exists pre tail, name = pre +:+ tail /\ lowercase tail = ext.

(** The file passes the check of [selectUpload]. *)
Definition supported_format (f : File) : Prop :=
  In (file_type f) allowed \/
  exists ext, In ext allowed_extensions /\ ends_with_ci (file_name f) ext.

(** [isGenerateReady(mode)]: the selection matching the mode is present. *)
Definition isGenerateReady (s : State) : bool :=
  match activeMode (vars s) with
  | upload => is_some (uploadedFile (vars s))
  | record => is_some (recordedBlob (vars s))
  end.

(** The generate control is enabled exactly when the gate holds. *)
Definition gate_consistent (s : State) : Prop :=
  negb (generateDisabled (generateDom s)) = isGenerateReady s.

(** The place of a stage in the order transcribe, summarize, quiz, flash. *)
Definition stage_index (st : Stage) : nat :=
  match st with
  | transcribe => 0
  | summarize => 1
  | quiz => 2
  | flash => 3
  end.

(** What the element of stage [st] shows when [cur] is the active stage
    ([None]: no stage is active): the stages before the active one are done,
    the active one is active, the others are pending. *)
Definition expected_el (cur : option Stage) (st : Stage) : StepEl :=
  match cur with
  | None => pending_el
  | Some c =>
      if (stage_index st <? stage_index c)%nat then done_el
      else if (stage_index st =? stage_index c)%nat then active_el
      else pending_el
  end.

Definition shows (e : StepEls) (cur : option Stage) : Prop :=
  forall st, get_step st e = expected_el cur st.

(** The first stage whose element carries [active]. *)
Definition active_stage (e : StepEls) : option Stage :=
  find (fun st => cls_active (get_step st e)) steps.

(** At most one stage is active, the stages before it are done and the
    stages after it are pending. *)
Definition progress_well_formed (g : GenerateDom) : Prop :=
  shows (stepEls g) (active_stage (stepEls g)).

(** How far the progress display is: 0 when all stages are pending. *)
Definition progress_rank (g : GenerateDom) : nat :=
  match active_stage (stepEls g) with
  | None => 0
  | Some st => S (stage_index st)
  end.

(** A stage is seen as active: the overlay is shown and the element of the
    stage carries [active]. *)
Definition visually_active (g : GenerateDom) (st : Stage) : bool :=
  negb (overlayHidden g) && cls_active (get_step st (stepEls g)).

(** The generate region of the page at each moment of a run. *)
Definition progress_trace {A} (r : Run A) : list GenerateDom :=
  map generateDom (moments r).

(** The payload of a backend that answers with a logical failure. *)
Definition failure_payload (msg : string) : Payload :=
  {| p_success := Some false; p_error := Some msg; p_transcript := None;
     p_summary := None; p_bullets := None; p_quiz := None;
     p_flashcards := None |}.

Definition all_ascii : list ascii := map ascii_of_nat (seq 0 256).

Definition lower_alnum (c : ascii) : bool :=
  let n := nat_of_ascii c in
  ((97 <=? n) && (n <=? 122) || (48 <=? n) && (n <=? 57))%nat.

Fixpoint all_lower_alnum (s : string) : bool :=
  match s with
  | EmptyString => true
  | String c t => lower_alnum c && all_lower_alnum t
  end.

(** The notice shown for a file that is not taken. *)
Definition unsupported_notice : string :=
  "Please upload an audio file (MP3, WAV, WebM, OGG, M4A)".

(** The event is a click on the record button that the browser answers
    with a microphone stream. *)
Definition starts_recording (e : Event) : bool :=
  match e with
  | RecordClick (MicGranted _ _) => true
  | _ => false
  end.

(** The recording session: the recorder, the collected chunks, the timer,
    the elapsed seconds and the result blob, with the recorders, intervals
    and streams the browser holds for the script. *)
Definition session (s : State) :=
  (mediaRecorder (vars s), audioChunks (vars s), recordingTimer (vars s),
   recordingSeconds (vars s), recordedBlob (vars s),
   recorders (browser s), intervals (browser s), streams (browser s)).

(** The values of the session before any recording was started. *)
Definition idle_session :
  option nat * list Blob * option nat * N * option Blob
  * list Recorder * list bool * list bool :=
  (None, [], None, 0%N, None, [], [], []).

(** The notice of a refused microphone. *)
Definition mic_denied_notice : string :=
  "Microphone access denied. Please allow microphone permission in your browser.".

(** The labels of the export trigger. *)
Definition busy_label : string := "⏳ Generating PDF...".
Definition idle_label : string := "⬇️ Download PDF".

(** What makes an export fail, if anything: the request is rejected, the
    response is not ok, or its body cannot be read. *)
Definition pdf_failure (o : Thrown + PdfResponse) : option Thrown :=
  match o with
  | inl e => Some e
  | inr response =>
      if negb (pdf_ok response) then Some (Error "PDF generation failed")
      else match pdf_blob response with
           | inl e => Some e
           | inr _ => None
           end
  end.

(** The event is a click on the generate button. *)
Definition is_generate (e : Event) : bool :=
  match e with
  | GenerateClick _ => true
  | _ => false
  end.

(** The action is a start of recording that the browser answers with a
    microphone stream. *)
Definition restarts (a : Action) : bool :=
  match a with
  | record_start (MicGranted _ _) => true
  | _ => false
  end.

(** ** Example data *)

(** The text of the escaping scenario of the specification. *)
Definition script_text : string := "<script>" +:+ q +:+ "&'</script>".

Definition script_payload : Payload :=
  {| p_success := Some true; p_error := None;
     p_transcript := Some script_text; p_summary := Some script_text;
     p_bullets := Some [script_text];
     p_quiz := Some [{| question := Some script_text; answer := Some script_text |}];
     p_flashcards := Some [{| front := Some script_text; back := Some script_text |}] |}.

(** A payload without transcript, summary and bullets, with one quiz item
    and one flashcard whose texts are missing or empty. *)
Definition sparse_payload : Payload :=
  {| p_success := Some true; p_error := None;
     p_transcript := None; p_summary := Some EmptyString;
     p_bullets := None;
     p_quiz := Some [{| question := None; answer := Some EmptyString |}];
     p_flashcards := Some [{| front := Some EmptyString; back := None |}] |}.

(** The scenario file of the specification, and a file that is refused. *)
Definition lecture_mp3 : File :=
  {| file_name := "lecture.mp3"; file_type := "audio/mpeg"; file_size := 2400000 |}.

Definition notes_txt : File :=
  {| file_name := "notes.txt"; file_type := "text/plain"; file_size := 12 |}.

(** The backend-failure scenario of the specification: HTTP 200 with
    [{success: false, error: "model cold start"}]. *)
Definition cold_start_env : GenerateEnv :=
  {| readAsDataURL := inr "data:audio/webm;base64,AAAA";
     fetch_transcribe :=
       inr {| resp_ok := true; resp_status := 200;
              resp_json := inr (Some (failure_payload "model cold start")) |};
     ok_of_undefined := Error "Cannot read properties of undefined (reading 'ok')";
     property_of_null := Error "Cannot read properties of null" |}.

(** Three seconds of recording: the microphone is granted, three times the
    timer ticks and a chunk arrives, then the stop button is clicked and the
    recorder raises its last data and [stop]. *)
Definition chunk (n : nat) : Blob :=
  {| blob_bytes := repeat Byte.x00 n; blob_type := "audio/webm" |}.

Definition three_second_recording : list Event :=
  [RecordClick (MicGranted true (Error "NotSupportedError"));
   IntervalTick 0; DataAvailable 0 (chunk 4);
   IntervalTick 0; DataAvailable 0 (chunk 4);
   IntervalTick 0; DataAvailable 0 (chunk 4);
   StopClick; DataAvailable 0 (chunk 1); RecorderStopped 0].

(** A PDF endpoint that answers with a document. *)
Definition pdf_answer : Thrown + PdfResponse :=
  inr {| pdf_ok := true;
         pdf_blob := inr {| blob_bytes := [Byte.x25; Byte.x50; Byte.x44; Byte.x46];
                            blob_type := "application/pdf" |} |}.

(** A backend that answers with notes. *)
Definition notes_env : GenerateEnv :=
  {| readAsDataURL := inr "data:audio/webm;base64,AAAA";
     fetch_transcribe :=
       inr {| resp_ok := true; resp_status := 200;
              resp_json := inr (Some script_payload) |};
     ok_of_undefined := Error "Cannot read properties of undefined (reading 'ok')";
     property_of_null := Error "Cannot read properties of null" |}.

(** ** Further notions *)

(** The number of occurrences of a character in a text. *)
Fixpoint count_char (c : ascii) (s : string) : nat :=
  match s with
  | EmptyString => 0
  | String a t => (if Ascii.eqb a c then 1 else 0) + count_char c t
  end.

(** The five entities read back as the characters they stand for, the way
    the HTML parser reads the text of an element. *)
Fixpoint unescape (s : string) : string :=
  match s with
  | EmptyString => EmptyString
  | String "&" (String "a" (String "m" (String "p" (String ";" t)))) =>
      String "&" (unescape t)
  | String "&" (String "l" (String "t" (String ";" t))) =>
      String "<" (unescape t)
  | String "&" (String "g" (String "t" (String ";" t))) =>
      String ">" (unescape t)
  | String "&" (String "q" (String "u" (String "o" (String "t" (String ";" t))))) =>
      String dquote (unescape t)
  | String "&" (String "#" (String "0" (String "3" (String "9" (String ";" t))))) =>
      String "'" (unescape t)
  | String c t => String c (unescape t)
  end.


(** The part of a rendered quiz item that [toggleAnswer] touches: the inline
    [display] of the answer element and the text of the toggle button. *)
Record QuizToggle := { answer_display : string; toggle_text : string }.

(** A quiz item as [displayResults] leaves it: no inline [display], the
    button text of the template. *)
Definition rendered_toggle : QuizToggle :=
  {| answer_display := EmptyString; toggle_text := "👁 Reveal Answer" |}.

(** [toggleAnswer(btn)], on the item the button belongs to. *)
Definition toggleAnswer (v : QuizToggle) : QuizToggle :=
  let isVisible := String.eqb (answer_display v) "block" in
  {| answer_display := if isVisible then "none" else "block";
     toggle_text := if isVisible then "👁 Reveal Answer" else "🙈 Hide Answer" |}.

(** [n] clicks on the same toggle button. *)
Fixpoint toggle_clicks (n : nat) (v : QuizToggle) : QuizToggle :=
  match n with
  | O => v
  | S k => toggleAnswer (toggle_clicks k v)
  end.

(** An environment of a generation with the given answer of the reader. *)
Definition with_reader (r : Thrown + string) (env : GenerateEnv) : GenerateEnv :=
  {| readAsDataURL := r; fetch_transcribe := fetch_transcribe env;
     ok_of_undefined := ok_of_undefined env;
     property_of_null := property_of_null env |}.

(** An environment of a generation with the given answer of the server. *)
Definition with_fetch (r : Thrown + Response) (env : GenerateEnv) : GenerateEnv :=
  {| readAsDataURL := readAsDataURL env; fetch_transcribe := r;
     ok_of_undefined := ok_of_undefined env;
     property_of_null := property_of_null env |}.

(** The requests one click on the generate button sends: one multipart
    request for an uploaded file, one JSON request for a recorded blob that
    could be read, none otherwise. *)
Definition sent_by_generate (env : GenerateEnv) (s : State) : list Request :=
  match activeMode (vars s), uploadedFile (vars s), recordedBlob (vars s) with
  | upload, Some file, _ => [PostTranscribeForm file]
  | record, _, Some blob =>
      match readAsDataURL env with
      | inr text => [PostTranscribeJson (split_comma_1 text)]
      | inl _ => []
      end
  | _, _, _ => []
  end.

(** While a generation runs: the generate control is disabled, the loader
    is shown in place of the button text, and the overlay is shown. *)
Definition loading (g : GenerateDom) : Prop :=
  generateDisabled g = true /\ btnTextHidden g = true
  /\ btnLoaderHidden g = false /\ overlayHidden g = false.



(** The document an export hands to the browser, when it succeeds. *)
Definition pdf_document (o : Thrown + PdfResponse) : option Blob :=
  match o with
  | inr response =>
      if pdf_ok response
      then match pdf_blob response with inr b => Some b | inl _ => None end
      else None
  | inl _ => None
  end.

(** The part of [stopRecording] that runs unconditionally: the interval
    [t] is cleared and the recorder region goes back to its idle look. *)
Definition stop_cleanup (t : option nat) : State -> State :=
  clearInterval t
  >>> set_recordBtnHidden false
  >>> set_stopBtnHidden true
  >>> set_micRecording false
  >>> set_recStatus "✅ Recording saved! Preview below.".

(** The stored result is the empty object the script starts with, or a
    payload with a true success flag. *)
Definition stored_result_valid (p : Payload) : Prop :=
  p = empty_payload \/ p_success p = Some true.

(** ** Proof steps *)

(** A state split into all its fields, so that every assignment computes. *)
Ltac destruct_state s :=
  destruct s as [[mr ac rt rs uf rb am nd] [tbb tbc] [dz fiv fph fnd]
                 [rbh sbh tel rst mic pbh pbs]
                 [gdis bth blh ovh [el1 el2 el3 el4]]
                 [rh trt smt bl qg fg] [dt dd] [tm th]
                 [strs recs ints urls reqs dls tts]].

(** Case analysis on everything a generation depends on: the mode, the two
    selections, and the answers of the browser and of the server. *)
Ltac split_generate env s :=
  destruct env as [rd ft eu en];
  destruct s as [[mr ac rt rs uf rb am nd] [tbb tbc] [dz fiv fph fnd]
                 [rbh sbh tel rst mic pbh pbs]
                 [gdis bth blh ovh [el1 el2 el3 el4]]
                 [rh trt smt bl qg fg] [dt dd] [tm th]
                 [strs recs ints urls reqs dls tts]];
  destruct am, uf as [file|], rb as [blob|], rd as [e1|url],
    ft as [e2|[ok status [e3|[[succ errf tr su bu qu fl]|]]]];
  try destruct ok; try destruct succ as [[|]|].

(** * Results *)

(** ** Escaping *)

Lemma string_app_assoc (r s t : string) : (r +:+ s) +:+ t = r +:+ (s +:+ t).
Proof. induction r as [|b r IH]; simpl; [reflexivity|]. now rewrite IH. Qed.

Lemma replace_all_app c r s t :
  replace_all c r (s +:+ t) = replace_all c r s +:+ replace_all c r t.
Proof.
  induction s as [|a s IH]; simpl; [reflexivity|].
  destruct (Ascii.eqb a c); simpl; rewrite IH; [|reflexivity].
  now rewrite string_app_assoc.
Qed.

Lemma escape_chain_app s t : escape_chain (s +:+ t) = escape_chain s +:+ escape_chain t.
Proof. unfold escape_chain. now rewrite !replace_all_app. Qed.

(** A character that is none of the five is left alone by the chain. *)
Lemma escape_chain_char (a : ascii) :
  escape_chain (String a EmptyString) = entity a.
Proof.
  unfold entity.
  destruct (Ascii.eqb_spec a "&"%char) as [->|Ha]; [reflexivity|].
  destruct (Ascii.eqb_spec a "<"%char) as [->|Hl]; [reflexivity|].
  destruct (Ascii.eqb_spec a ">"%char) as [->|Hg]; [reflexivity|].
  destruct (Ascii.eqb_spec a dquote) as [->|Hq]; [reflexivity|].
  destruct (Ascii.eqb_spec a "'"%char) as [->|Hs]; [reflexivity|].
  unfold escape_chain; simpl.
  apply Ascii.eqb_neq in Ha, Hl, Hg, Hq, Hs.
  rewrite Ha; simpl. rewrite Hl; simpl. rewrite Hg; simpl.
  rewrite Hq; simpl. now rewrite Hs.
Qed.

Lemma escape_chain_substitute s : escape_chain s = substitute_entities s.
Proof.
  induction s as [|a s IH]; [reflexivity|].
  change (String a s) with (String a EmptyString +:+ s).
  rewrite escape_chain_app, escape_chain_char, IH. reflexivity.
Qed.

Lemma escapeHtml_substitute s : escapeHtml (Some s) = substitute_entities s.
Proof. destruct s; [reflexivity|]. apply escape_chain_substitute. Qed.


(** ** Display of the results *)

Lemma set_bulletsList_id s : set_bulletsList (bulletsList (resultsDom s)) s = s.
Proof. destruct s as [? ? ? ? ? [] ? ? ?]; reflexivity. Qed.

Lemma set_quizGrid_id s : set_quizGrid (quizGrid (resultsDom s)) s = s.
Proof. destruct s as [? ? ? ? ? [] ? ? ?]; reflexivity. Qed.

Lemma set_flashGrid_id s : set_flashGrid (flashGrid (resultsDom s)) s = s.
Proof. destruct s as [? ? ? ? ? [] ? ? ?]; reflexivity. Qed.

Lemma forEach_bullets (l : list string) s :
  forEach (fun point s =>
             set_bulletsList (bulletsList (resultsDom s) ++ [point]) s) l s
  = set_bulletsList (bulletsList (resultsDom s) ++ l) s.
Proof.
  unfold forEach. revert s.
  induction l as [|x l IH]; intros s; simpl.
  - now rewrite app_nil_r, set_bulletsList_id.
  - rewrite IH. destruct s as [? ? ? ? ? [] ? ? ?]. simpl. now rewrite <- app_assoc.
Qed.

Lemma forEach_flashcards (l : list Flashcard) s :
  forEach (fun card s =>
             set_flashGrid (flashGrid (resultsDom s) ++ [flashcard_html card]) s) l s
  = set_flashGrid (flashGrid (resultsDom s) ++ map flashcard_html l) s.
Proof.
  unfold forEach. revert s.
  induction l as [|x l IH]; intros s; simpl.
  - now rewrite app_nil_r, set_flashGrid_id.
  - rewrite IH. destruct s as [? ? ? ? ? [] ? ? ?]. simpl. now rewrite <- app_assoc.
Qed.

Lemma fold_quiz_from (k : nat) (l : list QuizItem) s :
  fold_left (fun acc ix =>
               set_quizGrid (quizGrid (resultsDom acc)
                             ++ [quiz_item_html (fst ix) (snd ix)]) acc)
            (imap (fun i x => (k + i, x)) l) s
  = set_quizGrid (quizGrid (resultsDom s)
                  ++ imap (fun i x => quiz_item_html (k + i) x) l) s.
Proof.
  revert k s.
  induction l as [|x l IH]; intros k s; simpl.
  - now rewrite app_nil_r, set_quizGrid_id.
  - rewrite (imap_ext _ (fun i x => (S k + i, x)))
      by (intros; unfold compose; f_equal; lia).
    rewrite IH. destruct s as [? ? ? ? ? [] ? ? ?]. simpl.
    rewrite <- app_assoc. simpl. do 4 f_equal.
    apply imap_ext. intros. unfold compose. f_equal. lia.
Qed.

Lemma forEach_i_quiz (l : list QuizItem) s :
  forEach_i (fun item i s =>
               set_quizGrid (quizGrid (resultsDom s) ++ [quiz_item_html i item]) s) l s
  = set_quizGrid (quizGrid (resultsDom s) ++ imap quiz_item_html l) s.
Proof. unfold forEach_i. exact (fold_quiz_from 0 l s). Qed.

(** What [displayResults] leaves on the page: the results region is
    rewritten as a whole, nothing else is touched. *)
Lemma displayResults_eq (data : Payload) (s : State) :
  displayResults data s =
  on_resultsDom (fun _ =>
    {| resultsHidden := false;
       transcriptText := js_or (p_transcript data) "Transcript not available.";
       summaryText := js_or (p_summary data) "Summary not available.";
       bulletsList := default [] (p_bullets data);
       quizGrid := imap quiz_item_html (default [] (p_quiz data));
       flashGrid := map flashcard_html (default [] (p_flashcards data)) |}) s.
Proof.
  unfold displayResults, andThen.
  rewrite forEach_flashcards, forEach_i_quiz, forEach_bullets.
  destruct s as [? ? ? ? ? [] ? ? ?]. reflexivity.
Qed.

Lemma displayResults_resultsDom (data : Payload) (s : State) :
  resultsDom (displayResults data s) =
  {| resultsHidden := false;
     transcriptText := js_or (p_transcript data) "Transcript not available.";
     summaryText := js_or (p_summary data) "Summary not available.";
     bulletsList := default [] (p_bullets data);
     quizGrid := imap quiz_item_html (default [] (p_quiz data));
     flashGrid := map flashcard_html (default [] (p_flashcards data)) |}.
Proof. rewrite displayResults_eq. destruct s. reflexivity. Qed.

Lemma displayResults_frame (data : Payload) (s : State) :
  vars (displayResults data s) = vars s
  /\ tabs (displayResults data s) = tabs s
  /\ uploadDom (displayResults data s) = uploadDom s
  /\ recorderDom (displayResults data s) = recorderDom s
  /\ generateDom (displayResults data s) = generateDom s
  /\ exportDom (displayResults data s) = exportDom s
  /\ toastDom (displayResults data s) = toastDom s
  /\ browser (displayResults data s) = browser s.
Proof. rewrite displayResults_eq. destruct s. repeat apply conj; reflexivity. Qed.



(** C3, as the code has it.  A missing or empty transcript or summary is
    rendered as its placeholder text; missing bullets, quiz or flashcards
    are rendered as empty lists; every quiz item and flashcard present is
    rendered from its template, in which a missing or empty question,
    answer, front or back is inserted as the empty text. *)
Theorem displayResults_missing_fields :
  forall (data : Payload) (s : State),
    let d := resultsDom (displayResults data s) in
    (truthy (p_transcript data) = false ->
       transcriptText d = "Transcript not available.")
    /\ (truthy (p_summary data) = false ->
         summaryText d = "Summary not available.")
    /\ (p_bullets data = None -> bulletsList d = [])
    /\ (p_quiz data = None -> quizGrid d = [])
    /\ (p_flashcards data = None -> flashGrid d = [])
    /\ bulletsList d = default [] (p_bullets data)
    /\ quizGrid d = imap quiz_item_html (default [] (p_quiz data))
    /\ flashGrid d = map flashcard_html (default [] (p_flashcards data))
    /\ (forall o : option string, truthy o = false -> escapeHtml o = EmptyString).
Proof.
  intros data s d. subst d. rewrite displayResults_resultsDom. simpl.
  repeat apply conj; try reflexivity.
  - destruct (p_transcript data) as [[|? ?]|]; simpl; intros; congruence.
  - destruct (p_summary data) as [[|? ?]|]; simpl; intros; congruence.
  - now intros ->.
  - now intros ->.
  - now intros ->.
  - intros [[|? ?]|]; simpl; intros; congruence.
Qed.

Lemma displayResults_missing_fields_witness :
  let d := resultsDom (displayResults sparse_payload index_page) in
  transcriptText d = "Transcript not available."
  /\ summaryText d = "Summary not available."
  /\ bulletsList d = []
  /\ escapeHtml (question {| question := None; answer := Some EmptyString |})
     = EmptyString.
Proof.
  destruct (displayResults_missing_fields sparse_payload index_page)
    as (Ht & Hs & Hb & _ & _ & _ & _ & _ & He).
  repeat apply conj.
  - apply Ht. reflexivity.
  - apply Hs. reflexivity.
  - apply Hb. reflexivity.
  - apply He. reflexivity.
Defined.

(** C3, as stated, fails: for [sparse_payload] nothing is rendered for the
    missing bullets, and the question, answer, front and back elements are
    empty; no placeholder text appears in them. *)
Lemma displayResults_no_placeholder_counterexample :
  let d := resultsDom (displayResults sparse_payload index_page) in
  p_bullets sparse_payload = None
  /\ p_quiz sparse_payload = Some [{| question := None; answer := Some EmptyString |}]
  /\ p_flashcards sparse_payload = Some [{| front := Some EmptyString; back := None |}]
  /\ bulletsList d = []
  /\ quizGrid d =
      [nl +:+ "      " +:+ open_tag "div" "quiz-number" +:+ "Question 1</div>"
       +:+ nl +:+ "      " +:+ open_tag "div" "quiz-question" +:+ "</div>"
       +:+ nl +:+ "      <button class=" +:+ q +:+ "quiz-answer-toggle" +:+ q
       +:+ " onclick=" +:+ q +:+ "toggleAnswer(this)" +:+ q +:+ ">"
       +:+ "👁 Reveal Answer</button>"
       +:+ nl +:+ "      " +:+ open_tag "div" "quiz-answer" +:+ "</div>"
       +:+ nl +:+ "    "]
  /\ flashGrid d =
      [nl +:+ "      " +:+ open_tag "div" "flashcard-inner"
       +:+ nl +:+ "        " +:+ open_tag "div" "flashcard-front" +:+ "</div>"
       +:+ nl +:+ "        " +:+ open_tag "div" "flashcard-back" +:+ "</div>"
       +:+ nl +:+ "      </div>"
       +:+ nl +:+ "    "].
Proof. vm_compute. repeat apply conj; reflexivity. Qed.

(** ** Upload validation *)

Lemma all_ascii_complete (c : ascii) : In c all_ascii.
Proof.
  unfold all_ascii. rewrite <- (ascii_nat_embedding c).
  apply in_map, in_seq. pose proof (nat_ascii_bounded c). lia.
Qed.

Lemma forallb_all_ascii (P : ascii -> bool) :
  forallb P all_ascii = true -> forall c, P c = true.
Proof.
  intros H c. rewrite forallb_forall in H. apply H, all_ascii_complete.
Qed.

(** Under the [i] flag a lower-case letter or a digit of the pattern matches
    exactly the characters whose lower-case form it is. *)
Lemma canonicalize_to_lower (a b : ascii) :
  lower_alnum a = true ->
  Ascii.eqb (canonicalize a) (canonicalize b) = Ascii.eqb (to_lower b) a.
Proof.
  revert a b.
  assert (H : forallb (fun a => forallb (fun b =>
                implb (lower_alnum a)
                  (Bool.eqb (Ascii.eqb (canonicalize a) (canonicalize b))
                            (Ascii.eqb (to_lower b) a))) all_ascii) all_ascii
              = true) by (vm_compute; reflexivity).
  intros a b Ha.
  pose proof (forallb_all_ascii _ (forallb_all_ascii _ H a) b) as Hab.
  simpl in Hab. rewrite Ha in Hab. simpl in Hab.
  now apply Bool.eqb_prop in Hab.
Qed.

Lemma to_lower_dot (c : ascii) : to_lower c = "."%char -> c = "."%char.
Proof.
  assert (H : forallb (fun c => implb (Ascii.eqb (to_lower c) "."%char)
                                      (Ascii.eqb c "."%char)) all_ascii = true)
    by (vm_compute; reflexivity).
  intros Hc. pose proof (forallb_all_ascii _ H c) as Hd. simpl in Hd.
  rewrite Hc in Hd. simpl in Hd. now apply Ascii.eqb_eq.
Qed.

Lemma ci_eqb_lowercase (e t : string) :
  all_lower_alnum e = true -> (ci_eqb e t = true <-> lowercase t = e).
Proof.
  revert t. induction e as [|a e IH]; intros [|b t] He; simpl; try easy.
  simpl in He. apply andb_true_iff in He as [Ha He].
  rewrite (canonicalize_to_lower a b Ha), andb_true_iff, Ascii.eqb_eq, (IH t He).
  split; [intros [-> ->]; reflexivity | intros [= -> ->]; split; reflexivity].
Qed.

Lemma match_here_iff (s : string) :
  match_here s = true <->
  exists ext, In ext allowed_extensions /\ lowercase s = ext.
Proof.
  split.
  - destruct s as [|c t]; cbn [match_here]; [discriminate|].
    rewrite andb_true_iff, Ascii.eqb_eq, existsb_exists.
    intros [-> (e & He & Hm)].
    exists (String "."%char e). split.
    + simpl in He. simpl. intuition (subst; auto).
    + apply ci_eqb_lowercase in Hm; [cbn [lowercase]; now rewrite Hm|].
      simpl in He. intuition (subst; reflexivity).
  - intros (ext & Hin & Hl).
    assert (exists e, ext = String "."%char e /\ In e extensions) as (e & -> & He).
    { simpl in Hin. simpl.
      repeat (destruct Hin as [<-|Hin]; [eexists; split; [reflexivity|tauto]|]).
      destruct Hin. }
    assert (Hal : all_lower_alnum e = true).
    { clear -He. simpl in He. intuition (subst; reflexivity). }
    destruct s as [|c t]; [discriminate|]. simpl in Hl.
    injection Hl as Hc Ht. apply to_lower_dot in Hc. subst c.
    cbn [match_here]. rewrite Ascii.eqb_refl. cbn [andb].
    apply existsb_exists. exists e. split; [exact He|].
    now apply ci_eqb_lowercase.
Qed.

Lemma regex_match_iff (name : string) :
  regex_match name = true <->
  exists pre tail, name = pre +:+ tail /\ match_here tail = true.
Proof.
  induction name as [|c name IH].
  - simpl. split; [discriminate|].
    intros (pre & tail & Heq & Hm). destruct pre; simpl in Heq; [|discriminate].
    subst tail. discriminate.
  - cbn [regex_match]. rewrite orb_true_iff, IH. split.
    + intros [Hm | (pre & tail & -> & Hm)].
      * exists EmptyString, (String c name). now split.
      * exists (String c pre), tail. now split.
    + intros (pre & tail & Heq & Hm). destruct pre as [|c' pre]; simpl in Heq.
      * subst tail. now left.
      * injection Heq as -> ->. right. now exists pre, tail.
Qed.

Lemma includes_In (l : list string) (t : string) : includes l t = true <-> In t l.
Proof.
  unfold includes. rewrite existsb_exists. split.
  - intros (x & Hx & He). apply String.eqb_eq in He. now subst.
  - intros H. exists t. split; [exact H | apply String.eqb_refl].
Qed.

Lemma accepted_supported (f : File) : accepted f = true <-> supported_format f.
Proof.
  unfold accepted, supported_format.
  rewrite negb_true_iff, andb_false_iff, !negb_false_iff, includes_In, regex_match_iff.
  apply or_iff_compat_l. unfold ends_with_ci. split.
  - intros (pre & tail & Heq & Hm). apply match_here_iff in Hm as (ext & Hin & Hl).
    exists ext. split; [exact Hin|]. now exists pre, tail.
  - intros (ext & Hin & pre & tail & Heq & Hl). exists pre, tail.
    split; [exact Heq|]. apply match_here_iff. now exists ext.
Qed.

Lemma handleFileSelect_rejected (f : File) (s : State) :
  accepted f = false ->
  handleFileSelect f s = showError (Some unsupported_notice) s.
Proof.
  unfold accepted, handleFileSelect. intros H.
  apply negb_false_iff in H. now rewrite H.
Qed.

Lemma handleFileSelect_accepted (f : File) (s : State) :
  accepted f = true ->
  handleFileSelect f s =
  (set_uploadedFile (Some f)
   >>> set_fileNameDisp
         ("📎 " +:+ file_name f +:+ " (" +:+ formatBytes (file_size f) +:+ ")")
   >>> set_filePreviewHidden false
   >>> updateGenerateBtn) s.
Proof.
  unfold accepted, handleFileSelect. intros H.
  apply negb_true_iff in H. now rewrite H.
Qed.

(** C5.  [handleFileSelect] takes a file if and only if its declared media
    type is in the allow-set or its name ends, case-insensitively, with one
    of the allowed extensions.  A file that is taken becomes the selection;
    for a file that is not, the notice is shown and the selection and every
    other part of the state (the toast and its timer apart) are as before. *)
Theorem handleFileSelect_supported_format :
  forall (f : File) (s : State),
    (accepted f = true <-> supported_format f)
    /\ (supported_format f ->
          uploadedFile (vars (handleFileSelect f s)) = Some f
          /\ filePreviewHidden (uploadDom (handleFileSelect f s)) = false)
    /\ (accepted f = false ->
          toastMsg (toastDom (handleFileSelect f s)) = unsupported_notice
          /\ toastHidden (toastDom (handleFileSelect f s)) = false
          /\ vars (handleFileSelect f s) = vars s
          /\ tabs (handleFileSelect f s) = tabs s
          /\ uploadDom (handleFileSelect f s) = uploadDom s
          /\ recorderDom (handleFileSelect f s) = recorderDom s
          /\ generateDom (handleFileSelect f s) = generateDom s
          /\ resultsDom (handleFileSelect f s) = resultsDom s
          /\ exportDom (handleFileSelect f s) = exportDom s
          /\ requests (browser (handleFileSelect f s)) = requests (browser s)
          /\ recorders (browser (handleFileSelect f s)) = recorders (browser s)
          /\ streams (browser (handleFileSelect f s)) = streams (browser s)
          /\ intervals (browser (handleFileSelect f s)) = intervals (browser s)
          /\ objectUrls (browser (handleFileSelect f s)) = objectUrls (browser s)
          /\ downloads (browser (handleFileSelect f s)) = downloads (browser s)).
Proof.
  intros f s. split; [apply accepted_supported|]. split.
  - intros H. apply accepted_supported in H.
    rewrite (handleFileSelect_accepted f s H).
    destruct s as [[] ? [] ? [] ? ? ? ?]. split; reflexivity.
  - intros H. rewrite (handleFileSelect_rejected f s H).
    destruct s as [? ? ? ? ? ? ? [] []]. repeat apply conj; reflexivity.
Qed.

Lemma handleFileSelect_supported_format_witness :
  (uploadedFile (vars (handleFileSelect lecture_mp3 (load index_page)))
     = Some lecture_mp3
   /\ filePreviewHidden (uploadDom (handleFileSelect lecture_mp3 (load index_page)))
     = false)
  /\ toastMsg (toastDom (handleFileSelect notes_txt (load index_page)))
     = unsupported_notice
  /\ uploadedFile (vars (handleFileSelect notes_txt (load index_page))) = None.
Proof.
  split; [|split].
  - apply (handleFileSelect_supported_format lecture_mp3 (load index_page)).
    left. simpl. tauto.
  - apply (handleFileSelect_supported_format notes_txt (load index_page)).
    reflexivity.
  - destruct (handleFileSelect_supported_format notes_txt (load index_page))
      as (_ & _ & H).
    destruct (H eq_refl) as (_ & _ & Hv & _). rewrite Hv. reflexivity.
Defined.

(** The upload scenario of the specification: the display line and the
    generate control after [lecture.mp3] was chosen. *)
Example lecture_mp3_display :
  fileNameDisp (uploadDom (handleFileSelect lecture_mp3 (load index_page)))
    = "📎 lecture.mp3 (2.3 MB)"
  /\ generateDisabled (generateDom (handleFileSelect lecture_mp3 (load index_page)))
    = false.
Proof. split; reflexivity. Qed.

(** ** Generation *)

(** The handler in terms of its [try] block: on success the two timeouts
    follow, on failure the [catch] block. *)
Lemma generate_click_run (env : GenerateEnv) (s : State) :
  generate_click env s =
  match generate_try env (showProcessingOverlay (setLoading true s)) with
  | MkRun (inr data) s1 frames =>
      MkRun (inr tt)
        (displayResults data
           (setLoading false (hideProcessingOverlay (setStep flash s1))))
        (frames ++ [s1; setStep flash s1])
  | MkRun (inl err) s1 frames =>
      MkRun (inr tt)
        (showError (message err) (setLoading false (hideProcessingOverlay s1)))
        frames
  end.
Proof.
  unfold generate_click, try_catch, mbind, Js_bind, mret, Js_ret, exec, yield.
  destruct (generate_try env (showProcessingOverlay (setLoading true s)))
    as [[err|data] st fr]; cbn -[displayResults setStep];
    rewrite !app_nil_r; reflexivity.
Qed.

(** The generate region at each moment of a run; [displayResults] does not
    touch it. *)
Lemma generate_click_progress (env : GenerateEnv) (s : State) :
  progress_trace (generate_click env s) =
  match generate_try env (showProcessingOverlay (setLoading true s)) with
  | MkRun (inr data) s1 frames =>
      map generateDom frames ++
      [generateDom s1; generateDom (setStep flash s1);
       generateDom (setLoading false (hideProcessingOverlay (setStep flash s1)))]
  | MkRun (inl err) s1 frames =>
      map generateDom frames ++
      [generateDom (showError (message err)
                      (setLoading false (hideProcessingOverlay s1)))]
  end.
Proof.
  unfold progress_trace, moments. rewrite generate_click_run.
  destruct (generate_try env (showProcessingOverlay (setLoading true s)))
    as [[err|data] st fr]; cbn [run_state run_frames].
  - now rewrite map_app.
  - rewrite !map_app. cbn [map].
    destruct (displayResults_frame data
                (setLoading false (hideProcessingOverlay (setStep flash st))))
      as (_ & _ & _ & _ & -> & _).
    now rewrite <- app_assoc.
Qed.

(** C6.  Within one generation the progress display is reset to all-pending
    at the start; at every moment at most one stage is active, the stages
    before it are done and those after it pending; the display never moves
    backwards; on success it reaches [flash] while the overlay is shown; on
    any failure the overlay is hidden, so that no stage is seen as active. *)
Theorem generate_progress_stages :
  forall (env : GenerateEnv) (s : State),
    let start := showProcessingOverlay (setLoading true s) in
    let r := generate_click env s in
    shows (stepEls (generateDom start)) None
    /\ Forall progress_well_formed (progress_trace r)
    /\ StronglySorted le (map progress_rank (generateDom start :: progress_trace r))
    /\ match run_val (generate_try env start) with
       | inr data =>
           exists g, last (map generateDom (run_frames r)) = Some g
                     /\ active_stage (stepEls g) = Some flash
                     /\ overlayHidden g = false
       | inl err =>
           overlayHidden (generateDom (run_state r)) = true
           /\ forall st, visually_active (generateDom (run_state r)) st = false
       end.
Proof.
  intros env s start r. subst start r.
  rewrite generate_click_progress, generate_click_run.
  split_generate env s; vm_compute.
  all: split; [intros []; reflexivity|].
  all: split; [repeat constructor; intros []; reflexivity|].
  all: split; [repeat constructor|].
  all: try (split; [reflexivity | intros _; reflexivity]).
  all: eexists; split; [reflexivity | split; reflexivity].
Qed.

(** A generation that succeeds: the display goes through the four stages
    in order and the results are rendered, escaped. *)
Example generate_success_run :
  let r := generate_click notes_env (handleFileSelect lecture_mp3 (load index_page)) in
  map progress_rank (progress_trace r) = [1; 2; 3; 4; 4]
  /\ map overlayHidden (progress_trace r) = [false; false; false; false; true]
  /\ notesData (vars (run_state r)) = script_payload
  /\ transcriptText (resultsDom (run_state r)) = script_text
  /\ generateDisabled (generateDom (run_state r)) = false
  /\ requests (browser (run_state r)) = [PostTranscribeForm lecture_mp3].
Proof. vm_compute. repeat apply conj; reflexivity. Qed.

(** C7.  With a selection matching the active mode, if [/transcribe] answers
    with an HTTP-success response whose payload has a false success flag and
    the error "model cold start", the handler ends without a result: the
    notice shows "model cold start", the overlay is hidden and the generate
    control is enabled again; the stored result is as before. *)
Theorem generate_backend_error :
  forall (env : GenerateEnv) (s : State) (resp : Response) (data : Payload),
    isGenerateReady s = true ->
    (activeMode (vars s) = record -> exists url, readAsDataURL env = inr url) ->
    fetch_transcribe env = inr resp ->
    resp_ok resp = true ->
    resp_json resp = inr (Some data) ->
    p_success data = Some false ->
    p_error data = Some "model cold start" ->
    let r := generate_click env s in
    run_val r = inr tt
    /\ toastMsg (toastDom (run_state r)) = "model cold start"
    /\ toastHidden (toastDom (run_state r)) = false
    /\ overlayHidden (generateDom (run_state r)) = true
    /\ generateDisabled (generateDom (run_state r)) = false
    /\ btnTextHidden (generateDom (run_state r)) = false
    /\ btnLoaderHidden (generateDom (run_state r)) = true
    /\ notesData (vars (run_state r)) = notesData (vars s)
    /\ resultsDom (run_state r) = resultsDom s.
Proof.
  intros env s resp data Hready Hrd Hf Hok Hj Hs He r. subst r.
  rewrite generate_click_run.
  destruct env as [rd ft eu en]. simpl in Hrd, Hf. subst ft.
  destruct resp as [ok status js]. simpl in Hok, Hj. subst ok js.
  destruct data as [succ errf tr su bu qu fl]. simpl in Hs, He. subst succ errf.
  destruct_state s. unfold isGenerateReady in Hready. simpl in Hready, Hrd.
  destruct am.
  - destruct uf; [|discriminate]. vm_compute. repeat apply conj; reflexivity.
  - destruct rb; [|discriminate]. destruct (Hrd eq_refl) as [url ->].
    vm_compute. repeat apply conj; reflexivity.
Qed.

Lemma generate_backend_error_witness :
  let r := generate_click cold_start_env (handleFileSelect lecture_mp3 (load index_page)) in
  run_val r = inr tt
  /\ toastMsg (toastDom (run_state r)) = "model cold start"
  /\ toastHidden (toastDom (run_state r)) = false
  /\ overlayHidden (generateDom (run_state r)) = true
  /\ generateDisabled (generateDom (run_state r)) = false.
Proof.
  destruct (generate_backend_error cold_start_env
              (handleFileSelect lecture_mp3 (load index_page))
              {| resp_ok := true; resp_status := 200;
                 resp_json := inr (Some (failure_payload "model cold start")) |}
              (failure_payload "model cold start"))
    as (H1 & H2 & H3 & H4 & H5 & _); try reflexivity.
  - intros H. vm_compute in H. discriminate H.
  - repeat apply conj; assumption.
Defined.

(** ** Microphone recording *)

(** C10.  When the microphone is refused, [startRecording] only shows the
    notice: the variables (collected chunks, recorded blob, elapsed seconds,
    recorder, timer), the recorder region of the page (timer display, start
    and stop controls, status, playback) and everything else the toast
    apart are as before, and nothing is thrown to the caller. *)
Theorem startRecording_denied_unchanged :
  forall (err : Thrown) (s : State),
    let r := startRecording (MicDenied err) s in
    run_val r = inr tt
    /\ run_state r = showError (Some mic_denied_notice) s
    /\ vars (run_state r) = vars s
    /\ recorderDom (run_state r) = recorderDom s
    /\ tabs (run_state r) = tabs s
    /\ uploadDom (run_state r) = uploadDom s
    /\ generateDom (run_state r) = generateDom s
    /\ resultsDom (run_state r) = resultsDom s
    /\ exportDom (run_state r) = exportDom s
    /\ session (run_state r) = session s
    /\ objectUrls (browser (run_state r)) = objectUrls (browser s)
    /\ requests (browser (run_state r)) = requests (browser s)
    /\ downloads (browser (run_state r)) = downloads (browser s)
    /\ toastMsg (toastDom (run_state r)) = mic_denied_notice
    /\ toastHidden (toastDom (run_state r)) = false.
Proof.
  intros err s r. subst r. destruct_state s.
  vm_compute. repeat apply conj; reflexivity.
Qed.

(** The session is touched by the recording handlers only. *)
Lemma session_displayResults data s : session (displayResults data s) = session s.
Proof.
  unfold session.
  destruct (displayResults_frame data s) as (-> & _ & _ & _ & _ & _ & _ & ->).
  reflexivity.
Qed.

Lemma session_handleFileSelect f s : session (handleFileSelect f s) = session s.
Proof.
  destruct (accepted f) eqn:E.
  - rewrite (handleFileSelect_accepted f s E). destruct_state s. reflexivity.
  - rewrite (handleFileSelect_rejected f s E). destruct_state s. reflexivity.
Qed.

Lemma session_generate_try env s :
  match generate_try env s with MkRun _ s1 _ => session s1 = session s end.
Proof. split_generate env s; vm_compute; reflexivity. Qed.

Lemma session_generate_click env s :
  session (run_state (generate_click env s)) = session s.
Proof.
  rewrite generate_click_run.
  pose proof (session_generate_try env (showProcessingOverlay (setLoading true s))) as H.
  destruct (generate_try env (showProcessingOverlay (setLoading true s)))
    as [[err|data] s1 fr]; cbn [run_state].
  - transitivity (session s1); [destruct_state s1; reflexivity|].
    rewrite H. destruct_state s. reflexivity.
  - rewrite session_displayResults.
    transitivity (session s1); [destruct_state s1; reflexivity|].
    rewrite H. destruct_state s. reflexivity.
Qed.

Lemma session_download_click o s :
  session (run_state (download_click o s)) = session s.
Proof.
  destruct o as [e|[ok [e|b]]]; try destruct ok; destruct_state s; reflexivity.
Qed.

Lemma session_handle (e : Event) (s : State) :
  starts_recording e = false ->
  session s = idle_session -> session (handle e s) = idle_session.
Proof.
  intros He Hs. destruct e; cbn [handle].
  - rewrite <- Hs. destruct_state s. reflexivity.
  - rewrite <- Hs. destruct_state s. reflexivity.
  - rewrite <- Hs. destruct_state s. reflexivity.
  - rewrite <- Hs. destruct file as [f|]; unfold dropzone_drop, andThen.
    + rewrite session_handleFileSelect. destruct_state s. reflexivity.
    + destruct_state s. reflexivity.
  - rewrite <- Hs. destruct file as [f|]; unfold fileInput_change, andThen.
    + rewrite session_handleFileSelect. destruct_state s. reflexivity.
    + destruct_state s. reflexivity.
  - rewrite <- Hs. destruct_state s. reflexivity.
  - destruct o as [err|w err]; [|discriminate He].
    rewrite <- Hs. destruct_state s. reflexivity.
  - destruct_state s. injection Hs as -> -> -> -> -> -> -> ->. reflexivity.
  - destruct_state s. injection Hs as -> -> -> -> -> -> -> ->. reflexivity.
  - destruct_state s. injection Hs as -> -> -> -> -> -> -> ->. reflexivity.
  - destruct_state s. injection Hs as -> -> -> -> -> -> -> ->. reflexivity.
  - now rewrite session_generate_click.
  - now rewrite session_download_click.
  - rewrite <- Hs. destruct_state s. destruct tts; reflexivity.
  - rewrite <- Hs. destruct_state s. reflexivity.
Qed.

Lemma session_handle_all (history : list Event) (s : State) :
  forallb (fun e => negb (starts_recording e)) history = true ->
  session s = idle_session -> session (handle_all history s) = idle_session.
Proof.
  unfold handle_all. revert s.
  induction history as [|e history IH]; intros s Hh Hs; [exact Hs|].
  cbn [forallb] in Hh. apply andb_true_iff in Hh as [He Hh].
  cbn [fold_left]. apply IH; [exact Hh|].
  apply session_handle; [now apply negb_true_iff | exact Hs].
Qed.

(** C8.  Whatever happened since the page was loaded, as long as no
    recording was ever started, [stopRecording] completes, leaves the
    variables and the browser objects as they are, so that the session keeps
    its initial idle values (no recorder, no chunks, no timer, zero seconds,
    no blob), and still runs the cleanup of the page, the four writes the
    script groups under "Reset UI": start control shown, stop control
    hidden, microphone mark removed, and the status line set to
    "Recording saved! Preview below.".  These four writes are all the call
    does: the state it leaves is the prior state with them applied. *)
Theorem stopRecording_before_start :
  forall (page : State) (history : list Event),
    forallb (fun e => negb (starts_recording e)) history = true ->
    let s := handle_all history (load page) in
    let s' := stopRecording s in
    session s' = idle_session
    /\ vars s' = vars s
    /\ browser s' = browser s
    /\ recordBtnHidden (recorderDom s') = false
    /\ stopBtnHidden (recorderDom s') = true
    /\ micRecording (recorderDom s') = false
    /\ timerEl (recorderDom s') = timerEl (recorderDom s)
    /\ playbackHidden (recorderDom s') = playbackHidden (recorderDom s)
    /\ playbackSrc (recorderDom s') = playbackSrc (recorderDom s)
    /\ tabs s' = tabs s
    /\ uploadDom s' = uploadDom s
    /\ generateDom s' = generateDom s
    /\ resultsDom s' = resultsDom s
    /\ exportDom s' = exportDom s
    /\ toastDom s' = toastDom s
    /\ recStatus (recorderDom s') = "✅ Recording saved! Preview below."
    /\ s' = (set_recordBtnHidden false
             >>> set_stopBtnHidden true
             >>> set_micRecording false
             >>> set_recStatus "✅ Recording saved! Preview below.") s.
Proof.
  intros page history Hh s s'. subst s'.
  assert (Hs : session s = idle_session).
  { apply session_handle_all; [exact Hh|]. destruct_state page. reflexivity. }
  clearbody s. destruct_state s.
  injection Hs as -> -> -> -> -> -> -> ->.
  vm_compute. repeat apply conj; reflexivity.
Qed.

Lemma stopRecording_before_start_witness :
  let s := handle_all [TabClick record; Drop (Some lecture_mp3);
                       RecordClick (MicDenied (Error "Permission denied"))]
             (load index_page) in
  session (stopRecording s) = idle_session
  /\ vars (stopRecording s) = vars s
  /\ recordBtnHidden (recorderDom (stopRecording s)) = false
  /\ stopBtnHidden (recorderDom (stopRecording s)) = true
  /\ recStatus (recorderDom (stopRecording s)) = "✅ Recording saved! Preview below.".
Proof.
  destruct (stopRecording_before_start index_page
              [TabClick record; Drop (Some lecture_mp3);
               RecordClick (MicDenied (Error "Permission denied"))])
    as (H1 & H2 & _ & H3 & H4 & _ & _ & _ & _ & _ & _ & _ & _ & _ & _ & H5 & _);
    [reflexivity|].
  repeat apply conj; assumption.
Defined.

(** ** The generate gate *)

Lemma updateGenerateBtn_gate (s : State) : gate_consistent (updateGenerateBtn s).
Proof.
  destruct_state s. unfold gate_consistent.
  destruct am, uf, rb; reflexivity.
Qed.

Lemma gate_tab_click m s : gate_consistent (tab_click m s).
Proof.
  destruct_state s. unfold gate_consistent. destruct m, uf, rb; reflexivity.
Qed.

Lemma gate_handleFileSelect f s :
  gate_consistent s -> gate_consistent (handleFileSelect f s).
Proof.
  intros H. destruct (accepted f) eqn:E.
  - rewrite (handleFileSelect_accepted f s E). destruct_state s.
    unfold gate_consistent. destruct am, rb; reflexivity.
  - rewrite (handleFileSelect_rejected f s E). destruct_state s. exact H.
Qed.

Lemma gate_removeFile_click s : gate_consistent (removeFile_click s).
Proof.
  destruct_state s. unfold gate_consistent. destruct am, rb; reflexivity.
Qed.

Lemma gate_stopRecording s :
  gate_consistent s -> gate_consistent (stopRecording s).
Proof.
  intros H. destruct_state s. unfold gate_consistent in *.
  destruct rt, mr as [id|]; try exact H;
    unfold stopRecording, andThen, recorder_active;
    cbn [browser recorders vars mediaRecorder];
    destruct (recs !! id) as [[[] str stp]|]; exact H.
Qed.

Lemma gate_DataAvailable id data s :
  gate_consistent s -> gate_consistent (handle (DataAvailable id data) s).
Proof.
  intros H. destruct_state s. cbn [handle browser recorders].
  destruct (recs !! id) as [[[] str []]|]; try exact H;
    destruct data as [[|b bytes] ty]; exact H.
Qed.

Lemma gate_RecorderStopped id s :
  gate_consistent s -> gate_consistent (handle (RecorderStopped id) s).
Proof.
  intros H. destruct_state s. cbn [handle browser recorders].
  destruct (recs !! id) as [[st str []]|]; try exact H.
  unfold gate_consistent. destruct am, uf; reflexivity.
Qed.

Lemma gate_startRecording o s :
  gate_consistent s ->
  match o with
  | MicGranted _ _ => activeMode (vars s) = upload \/ recordedBlob (vars s) = None
  | MicDenied _ => True
  end ->
  gate_consistent (run_state (startRecording o s)).
Proof.
  intros H Ho. destruct_state s. unfold gate_consistent in *.
  destruct o as [err|[] err]; try exact H; cbn in Ho.
  - destruct Ho as [->| ->]; [exact H|]. destruct am; exact H.
  - destruct Ho as [->| ->]; [exact H|]. destruct am; exact H.
Qed.

(** Every action keeps the generate control in line with the gate, except a
    granted [record_start] in record mode while a recorded blob exists:
    [startRecording] clears the blob and does not call [updateGenerateBtn]. *)
Lemma gate_perform (a : Action) (s : State) :
  gate_consistent s ->
  match a with
  | record_start (MicGranted _ _) =>
      activeMode (vars s) = upload \/ recordedBlob (vars s) = None
  | _ => True
  end ->
  gate_consistent (perform a s).
Proof.
  intros H Ha. destruct a as [m|f| |o|last]; cbn [perform handle].
  - apply gate_tab_click.
  - unfold dropzone_drop, andThen. apply gate_handleFileSelect.
    destruct_state s. exact H.
  - apply gate_removeFile_click.
  - now apply gate_startRecording.
  - pose proof (gate_stopRecording s H) as H1.
    destruct (mediaRecorder (vars (stopRecording s))) as [id|]; [|exact H1].
    exact (gate_RecorderStopped id _ (gate_DataAvailable id last _ H1)).
Qed.

Lemma gate_perform_all (acts : list Action) (s : State) :
  forallb (fun a => negb (restarts a)) acts = true ->
  gate_consistent s -> gate_consistent (perform_all acts s).
Proof.
  unfold perform_all. revert s.
  induction acts as [|a acts IH]; intros s Ha Hs; [exact Hs|].
  cbn [forallb] in Ha. apply andb_true_iff in Ha as [Ha Hacts].
  cbn [fold_left]. apply IH; [exact Hacts|].
  apply gate_perform; [exact Hs|].
  destruct a as [| | |[|]|]; try exact I. discriminate Ha.
Qed.

(** C2 at its failing input.  In record mode, after a first recording was
    made and stopped, starting a second one clears the recorded blob and
    leaves the generate control enabled: the control no longer agrees with
    the gate, and a click on it ends in the error of reading [.ok] of
    [undefined]. *)
Theorem record_start_leaves_gate_stale :
  forall (page : State) (last : Blob) (err : Thrown) (env : GenerateEnv),
    let s := perform_all
               [switch_tab record; record_start (MicGranted true err);
                record_stop last; record_start (MicGranted true err)]
               (load page) in
    activeMode (vars s) = record
    /\ recordedBlob (vars s) = None
    /\ isGenerateReady s = false
    /\ generateDisabled (generateDom s) = false
    /\ toastMsg (toastDom (run_state (generate_click env s)))
       = default EmptyString (message (ok_of_undefined env))
    /\ requests (browser (run_state (generate_click env s))) = [].
Proof.
  intros page last err env s. subst s.
  destruct_state page. destruct last as [[|b bytes] ty];
    destruct env as [rd ft [[m|]] en];
    vm_compute; repeat apply conj; reflexivity.
Qed.

(** ** PDF download *)

(** C9.  Whatever the answer to the request, the handler ends without
    throwing, with the export trigger back at its idle label and enabled;
    while the handler is suspended the trigger shows the busy label and is
    disabled.  When the export fails, the notice shows the failure message;
    when it does not, the document is handed to the browser as
    [lecture_notes.pdf] and the toast is untouched. *)
Theorem download_click_restores_trigger :
  forall (o : Thrown + PdfResponse) (s : State),
    let r := download_click o s in
    run_val r = inr tt
    /\ downloadText (exportDom (run_state r)) = idle_label
    /\ downloadDisabled (exportDom (run_state r)) = false
    /\ Forall (fun m => downloadText (exportDom m) = busy_label
                        /\ downloadDisabled (exportDom m) = true) (run_frames r)
    /\ match pdf_failure o with
       | Some e =>
           toastMsg (toastDom (run_state r))
             = "Failed to generate PDF: " +:+ default "undefined" (message e)
           /\ toastHidden (toastDom (run_state r)) = false
           /\ downloads (browser (run_state r)) = downloads (browser s)
       | None =>
           toastDom (run_state r) = toastDom s
           /\ downloads (browser (run_state r))
              = downloads (browser s)
                ++ [("lecture_notes.pdf", length (objectUrls (browser s)))]
       end.
Proof.
  intros o s r. subst r.
  destruct o as [e|[[] [e|b]]]; destruct_state s; vm_compute;
    repeat apply conj; try reflexivity; repeat constructor.
Qed.

(** The stored result is written by the generate handler only. *)
Lemma notesData_handle (e : Event) (s : State) :
  is_generate e = false ->
  notesData (vars (handle e s)) = notesData (vars s).
Proof.
  intros He. destruct e; try discriminate He; cbn [handle].
  - destruct_state s. reflexivity.
  - destruct_state s. reflexivity.
  - destruct_state s. reflexivity.
  - unfold dropzone_drop, andThen. destruct file as [f|]; [|now destruct_state s].
    destruct (accepted f) eqn:E;
      [rewrite (handleFileSelect_accepted f _ E)
      |rewrite (handleFileSelect_rejected f _ E)];
      destruct_state s; reflexivity.
  - unfold fileInput_change, andThen. destruct file as [f|]; [|now destruct_state s].
    destruct (accepted f) eqn:E;
      [rewrite (handleFileSelect_accepted f _ E)
      |rewrite (handleFileSelect_rejected f _ E)];
      destruct_state s; reflexivity.
  - destruct_state s. reflexivity.
  - destruct o as [err|[] err]; destruct_state s; reflexivity.
  - destruct_state s. unfold stopRecording, andThen, recorder_active.
    cbn [vars mediaRecorder browser recorders].
    destruct rt, mr as [id|]; try reflexivity;
      destruct (recs !! id) as [[[] str stp]|]; reflexivity.
  - destruct_state s. cbn [browser recorders].
    destruct (recs !! id) as [[[] str []]|]; try reflexivity;
      destruct data as [[|b bytes] ty]; reflexivity.
  - destruct_state s. cbn [browser recorders].
    destruct (recs !! id) as [[st str []]|]; reflexivity.
  - destruct_state s. cbn [browser intervals].
    destruct (ints !! id) as [[|]|]; reflexivity.
  - destruct fetch_pdf as [e|[[] [e|b]]]; destruct_state s; reflexivity.
  - destruct_state s. destruct tts; reflexivity.
  - destruct_state s. reflexivity.
Qed.





(** * Further properties *)

(** ** Escaping *)

Lemma unescape_entity (a : ascii) (s : string) :
  unescape (entity a +:+ substitute_entities s)
  = String a (unescape (substitute_entities s)).
Proof.
  unfold entity.
  destruct (Ascii.eqb_spec a "&"%char) as [->|Ha]; [reflexivity|].
  destruct (Ascii.eqb_spec a "<"%char) as [->|Hl]; [reflexivity|].
  destruct (Ascii.eqb_spec a ">"%char) as [->|Hg]; [reflexivity|].
  destruct (Ascii.eqb_spec a dquote) as [->|Hq]; [reflexivity|].
  destruct (Ascii.eqb_spec a "'"%char) as [->|Hs]; [reflexivity|].
  cbn [String.append].
  destruct a as [[] [] [] [] [] [] [] []]; try reflexivity; congruence.
Qed.

(** X1.  Escaping loses nothing: reading the five entities back gives the
    text that was escaped, so two different texts never escape to the same
    markup. *)
Theorem escapeHtml_unescape :
  forall s : string, unescape (escapeHtml (Some s)) = s.
Proof.
  intros s. rewrite escapeHtml_substitute.
  induction s as [|a s IH]; [reflexivity|].
  cbn [substitute_entities]. rewrite unescape_entity, IH. reflexivity.
Qed.

Lemma count_char_app (c : ascii) (s t : string) :
  count_char c (s +:+ t) = count_char c s + count_char c t.
Proof.
  induction s as [|a s IH]; [reflexivity|].
  cbn [String.append count_char]. rewrite IH. lia.
Qed.

(** None of [<], [>], double quote and single quote occurs in escaped text. *)
Lemma count_char_escapeHtml (c : ascii) (o : option string) :
  In c ["<"%char; ">"%char; dquote; "'"%char] ->
  count_char c (escapeHtml o) = 0.
Proof.
  intros Hc. destruct o as [s|]; [|reflexivity].
  rewrite escapeHtml_substitute.
  induction s as [|a s IH]; [reflexivity|].
  cbn [substitute_entities]. rewrite count_char_app, IH, Nat.add_0_r.
  unfold entity.
  destruct (Ascii.eqb_spec a "&"%char) as [->|Ha];
    [cbn in Hc; intuition (subst; reflexivity)|].
  destruct (Ascii.eqb_spec a "<"%char) as [->|Hl];
    [cbn in Hc; intuition (subst; reflexivity)|].
  destruct (Ascii.eqb_spec a ">"%char) as [->|Hg];
    [cbn in Hc; intuition (subst; reflexivity)|].
  destruct (Ascii.eqb_spec a dquote) as [->|Hq];
    [cbn in Hc; intuition (subst; reflexivity)|].
  destruct (Ascii.eqb_spec a "'"%char) as [->|Hs];
    [cbn in Hc; intuition (subst; reflexivity)|].
  cbn [count_char]. rewrite Nat.add_0_r.
  destruct (Ascii.eqb_spec a c) as [->|Hac]; [|reflexivity].
  cbn in Hc. intuition congruence.
Qed.

Lemma count_char_string_of_uint (c : ascii) (d : Decimal.uint) :
  In c ["<"%char; ">"%char; dquote; "'"%char] ->
  count_char c (NilEmpty.string_of_uint d) = 0.
Proof.
  intros Hc. induction d; cbn [NilEmpty.string_of_uint count_char];
    try rewrite IHd; try reflexivity;
    cbn in Hc; intuition (subst; reflexivity).
Qed.

Lemma count_char_decimal (c : ascii) (n : N) :
  In c ["<"%char; ">"%char; dquote; "'"%char] ->
  count_char c (decimal n) = 0.
Proof.
  intros Hc. unfold decimal, NilZero.string_of_uint.
  destruct (N.to_uint n) eqn:E; rewrite <- ?E;
    try apply count_char_string_of_uint; try exact Hc.
  cbn in Hc. intuition (subst; reflexivity).
Qed.

(** X2.  The markup string the script builds for a quiz item or a
    flashcard and assigns to [innerHTML], that is, the text it hands to the
    HTML parser, does not depend on the texts it shows: whatever the
    question, answer, front and back are, and whatever the position of the
    item, that string has the angle brackets and quotes of the template and
    no others.  (This is about the assigned string, not about what reading
    [innerHTML] back from the page would give.) *)
Theorem rendered_markup_fixed :
  forall (i : nat) (item : QuizItem) (card : Flashcard),
    count_char "<" (quiz_item_html i item) = 8
    /\ count_char ">" (quiz_item_html i item) = 8
    /\ count_char dquote (quiz_item_html i item) = 10
    /\ count_char "'" (quiz_item_html i item) = 0
    /\ count_char "<" (flashcard_html card) = 6
    /\ count_char ">" (flashcard_html card) = 6
    /\ count_char dquote (flashcard_html card) = 6
    /\ count_char "'" (flashcard_html card) = 0.
Proof.
  intros i item card. unfold quiz_item_html, flashcard_html.
  repeat apply conj; rewrite !count_char_app;
    rewrite ?count_char_escapeHtml, ?count_char_decimal
      by (cbn; tauto);
    reflexivity.
Qed.

(** ** The recorded audio as base64 *)

Lemma split_comma_1_none (s : string) :
  count_char "," s = 0 -> split_comma_1 s = None.
Proof.
  induction s as [|a s IH]; [reflexivity|].
  cbn [count_char split_comma_1]. destruct (Ascii.eqb a ","); [discriminate|].
  exact IH.
Qed.

Lemma until_comma_all (s : string) :
  count_char "," s = 0 -> until_comma s = s.
Proof.
  induction s as [|a s IH]; [reflexivity|].
  cbn [count_char until_comma]. destruct (Ascii.eqb a ","); [discriminate|].
  intros H. now rewrite IH.
Qed.

Lemma split_comma_1_payload (header payload : string) :
  count_char "," header = 0 -> count_char "," payload = 0 ->
  split_comma_1 (header +:+ "," +:+ payload) = Some payload.
Proof.
  intros Hh Hp. induction header as [|a header IH].
  - cbn. now rewrite until_comma_all.
  - cbn [count_char] in Hh. cbn [String.append split_comma_1].
    destruct (Ascii.eqb a ","); [discriminate|]. now apply IH.
Qed.

Lemma blobToBase64_run (env : GenerateEnv) (blob : Blob) (s : State) :
  blobToBase64 env blob s =
  MkRun (match readAsDataURL env with
         | inl err => inl err
         | inr text => inr (split_comma_1 text)
         end) s [s].
Proof. destruct env as [[e|url] ft eu en]; reflexivity. Qed.

(** X3.  [blobToBase64] keeps the payload of the data URL and nothing else:
    when the reader gives [header,payload] with no comma in either part, the
    promise resolves to [payload]; when the reader's text has no comma at
    all it resolves to [undefined]; when the reader fails the promise is
    rejected with the reader's error.  The state is not touched. *)
Theorem blobToBase64_payload :
  forall (env : GenerateEnv) (blob : Blob) (s : State),
    run_state (blobToBase64 env blob s) = s
    /\ (forall header payload,
          readAsDataURL env = inr (header +:+ "," +:+ payload) ->
          count_char "," header = 0 -> count_char "," payload = 0 ->
          run_val (blobToBase64 env blob s) = inr (Some payload))
    /\ (forall text,
          readAsDataURL env = inr text -> count_char "," text = 0 ->
          run_val (blobToBase64 env blob s) = inr None)
    /\ (forall err,
          readAsDataURL env = inl err ->
          run_val (blobToBase64 env blob s) = inl err).
Proof.
  intros env blob s. rewrite blobToBase64_run. cbn [run_val run_state].
  repeat apply conj; [reflexivity| | |].
  - intros header payload -> Hh Hp. now rewrite split_comma_1_payload.
  - intros text -> Ht. now rewrite split_comma_1_none.
  - now intros err ->.
Qed.

Lemma blobToBase64_payload_witness :
  run_val (blobToBase64 notes_env (chunk 3) (load index_page)) = inr (Some "AAAA")
  /\ run_val (blobToBase64 (with_reader (inr "AAAA") notes_env) (chunk 3)
                (load index_page)) = inr None
  /\ run_val (blobToBase64 (with_reader (inl (Error "NotReadableError")) notes_env)
                (chunk 3) (load index_page)) = inl (Error "NotReadableError").
Proof.
  repeat apply conj.
  - destruct (blobToBase64_payload notes_env (chunk 3) (load index_page))
      as (_ & H & _).
    apply (H "data:audio/webm;base64" "AAAA"); reflexivity.
  - destruct (blobToBase64_payload (with_reader (inr "AAAA") notes_env)
                (chunk 3) (load index_page)) as (_ & _ & H & _).
    apply (H "AAAA"); reflexivity.
  - destruct (blobToBase64_payload
                (with_reader (inl (Error "NotReadableError")) notes_env)
                (chunk 3) (load index_page)) as (_ & _ & _ & H).
    apply H. reflexivity.
Defined.

(** ** Generation *)

Lemma generate_try_summary (env : GenerateEnv) (s : State) :
  match generate_try env s with
  | MkRun v s1 frames =>
      requests (browser s1) = requests (browser s) ++ sent_by_generate env s
      /\ toastDom s1 = toastDom s
      /\ resultsDom s1 = resultsDom s
      /\ exportDom s1 = exportDom s
      /\ (loading (generateDom s) ->
            loading (generateDom s1) /\ Forall (fun m => loading (generateDom m)) frames)
      /\ match v with
         | inr data => notesData (vars s1) = data /\ p_success data = Some true
         | inl _ => notesData (vars s1) = notesData (vars s)
         end
  end.
Proof.
  split_generate env s; vm_compute;
    repeat apply conj; try reflexivity;
    try (symmetry; apply app_nil_r);
    intros (-> & -> & -> & ->); repeat constructor.
Qed.

Lemma generate_start (s : State) :
  let start := showProcessingOverlay (setLoading true s) in
  vars start = vars s /\ browser start = browser s
  /\ toastDom start = toastDom s /\ resultsDom start = resultsDom s
  /\ exportDom start = exportDom s /\ loading (generateDom start).
Proof. destruct_state s. vm_compute. repeat apply conj; reflexivity. Qed.

Lemma sent_by_generate_start (env : GenerateEnv) (s : State) :
  sent_by_generate env (showProcessingOverlay (setLoading true s))
  = sent_by_generate env s.
Proof.
  unfold sent_by_generate.
  destruct (generate_start s) as (-> & _). reflexivity.
Qed.

(** X4.  One click on the generate button sends at most one request, and
    which one is decided by the active mode alone: the uploaded file as a
    multipart form in upload mode, the recorded audio as base64 JSON in
    record mode.  Nothing is sent when the selection of the active mode is
    missing or when the recorded blob cannot be read. *)
Theorem generate_click_requests :
  forall (env : GenerateEnv) (s : State),
    requests (browser (run_state (generate_click env s)))
    = requests (browser s) ++ sent_by_generate env s
    /\ length (sent_by_generate env s) <= 1
    /\ (isGenerateReady s = false -> sent_by_generate env s = []).
Proof.
  intros env s. split; [|split].
  - rewrite generate_click_run.
    pose proof (generate_try_summary env (showProcessingOverlay (setLoading true s)))
      as H.
    rewrite sent_by_generate_start in H.
    destruct (generate_start s) as (_ & Hb & _). rewrite Hb in H.
    destruct (generate_try env (showProcessingOverlay (setLoading true s)))
      as [[err|data] s1 fr]; destruct H as (H & _); cbn [run_state].
    + rewrite <- H. destruct_state s1. reflexivity.
    + destruct (displayResults_frame data
                  (setLoading false (hideProcessingOverlay (setStep flash s1))))
        as (_ & _ & _ & _ & _ & _ & _ & ->).
      rewrite <- H. destruct_state s1. reflexivity.
  - unfold sent_by_generate.
    destruct (activeMode (vars s)), (uploadedFile (vars s)),
      (recordedBlob (vars s)), (readAsDataURL env); cbn; lia.
  - unfold isGenerateReady, sent_by_generate.
    destruct (activeMode (vars s)), (uploadedFile (vars s)),
      (recordedBlob (vars s)); cbn; congruence.
Qed.

Lemma generate_click_requests_witness :
  sent_by_generate notes_env (tab_click record (handleFileSelect lecture_mp3 (load index_page)))
  = [].
Proof.
  apply (generate_click_requests notes_env
           (tab_click record (handleFileSelect lecture_mp3 (load index_page)))).
  reflexivity.
Defined.

(** X5.  A click on the generate button never throws to its caller.  While
    the handler waits (for the reader, for the server, for the two display
    delays) the generate control is disabled, the loader replaces the
    button text and the overlay is shown; when the handler ends, on success
    and on every failure alike, the control is enabled, the button text is
    back and the overlay is hidden. *)
Theorem generate_click_loading :
  forall (env : GenerateEnv) (s : State),
    let r := generate_click env s in
    run_val r = inr tt
    /\ Forall (fun m => loading (generateDom m)) (run_frames r)
    /\ generateDisabled (generateDom (run_state r)) = false
    /\ btnTextHidden (generateDom (run_state r)) = false
    /\ btnLoaderHidden (generateDom (run_state r)) = true
    /\ overlayHidden (generateDom (run_state r)) = true.
Proof.
  intros env s r. subst r. rewrite generate_click_run.
  pose proof (generate_try_summary env (showProcessingOverlay (setLoading true s)))
    as H.
  destruct (generate_start s) as (_ & _ & _ & _ & _ & Hl).
  destruct (generate_try env (showProcessingOverlay (setLoading true s)))
    as [[err|data] s1 fr];
    destruct H as (_ & _ & _ & _ & H & _); destruct (H Hl) as [H1 Hfr];
    cbn [run_state run_val run_frames].
  - split; [reflexivity|]. split; [exact Hfr|].
    destruct_state s1. repeat apply conj; reflexivity.
  - split; [reflexivity|]. split.
    + apply Forall_app. split; [exact Hfr|].
      destruct_state s1. destruct H1 as (E1 & E2 & E3 & E4). cbn in E1, E2, E3, E4.
      subst. repeat constructor.
    + destruct (displayResults_frame data
                  (setLoading false (hideProcessingOverlay (setStep flash s1))))
        as (_ & _ & _ & _ & -> & _).
      destruct_state s1. repeat apply conj; reflexivity.
Qed.

(** X6.  The stored result is replaced as a whole or not at all.  When the
    [try] block of the handler completes, the payload it received carries a
    true success flag, becomes the stored result and is the one that is
    rendered, and no notice is shown.  When it throws, the stored result
    and the rendered results are as before and the notice shows the message
    of what was thrown.  The export trigger is never touched. *)
Theorem generate_click_result :
  forall (env : GenerateEnv) (s : State),
    let r := generate_click env s in
    exportDom (run_state r) = exportDom s
    /\ match run_val (generate_try env (showProcessingOverlay (setLoading true s))) with
       | inr data =>
           p_success data = Some true
           /\ notesData (vars (run_state r)) = data
           /\ resultsDom (run_state r) = resultsDom (displayResults data s)
           /\ toastDom (run_state r) = toastDom s
       | inl err =>
           notesData (vars (run_state r)) = notesData (vars s)
           /\ resultsDom (run_state r) = resultsDom s
           /\ toastMsg (toastDom (run_state r)) = default EmptyString (message err)
           /\ toastHidden (toastDom (run_state r)) = false
       end.
Proof.
  intros env s r. subst r. rewrite generate_click_run.
  pose proof (generate_try_summary env (showProcessingOverlay (setLoading true s)))
    as H.
  destruct (generate_start s) as (Hv & _ & Ht & Hr & He & _).
  rewrite Hv, Ht, Hr, He in H.
  destruct (generate_try env (showProcessingOverlay (setLoading true s)))
    as [[err|data] s1 fr];
    destruct H as (_ & Htoast & Hres & Hex & _ & Hn);
    cbn [run_state run_val].
  - rewrite <- Hex, <- Hres, <- Hn.
    destruct_state s1. repeat apply conj; reflexivity.
  - destruct Hn as [Hn Hs].
    rewrite !displayResults_resultsDom.
    destruct (displayResults_frame data
                (setLoading false (hideProcessingOverlay (setStep flash s1))))
      as (-> & _ & _ & _ & _ & -> & -> & _).
    rewrite <- Hex, <- Htoast.
    split; [|split; [exact Hs|]]; [|rewrite <- Hn at 1];
      destruct_state s1; repeat apply conj; reflexivity.
Qed.

(** X7.  When the server answers with a failure status, the notice shows
    the [error] field of the JSON body if it has a non-empty one, and
    "HTTP <status>" if the body is a JSON object without one.  It is not a
    fallback for a body that is not JSON: then the notice shows the message
    of the parse failure, and for the body [null] the message of the
    property access that failed.  In every case the body is not taken as a
    result: the stored result is as before and the progress display never
    left its first stage. *)
Theorem generate_request_failed :
  forall (env : GenerateEnv) (s : State) (resp : Response),
    isGenerateReady s = true ->
    (activeMode (vars s) = record -> exists text, readAsDataURL env = inr text) ->
    fetch_transcribe env = inr resp ->
    resp_ok resp = false ->
    let r := generate_click env s in
    toastMsg (toastDom (run_state r))
    = match resp_json resp with
      | inl parse_error => default EmptyString (message parse_error)
      | inr None => default EmptyString (message (property_of_null env))
      | inr (Some body) =>
          js_or (p_error body) ("HTTP " +:+ decimal (resp_status resp))
      end
    /\ toastHidden (toastDom (run_state r)) = false
    /\ notesData (vars (run_state r)) = notesData (vars s)
    /\ resultsDom (run_state r) = resultsDom s
    /\ progress_rank (generateDom (run_state r)) = 1
    /\ generateDisabled (generateDom (run_state r)) = false.
Proof.
  intros env s resp Hready Hrd Hf Hok r. subst r.
  rewrite generate_click_run.
  destruct env as [rd ft eu en]. simpl in Hrd, Hf. subst ft.
  destruct resp as [ok status js]. simpl in Hok. subst ok.
  destruct_state s. unfold isGenerateReady in Hready. simpl in Hready, Hrd.
  destruct am.
  - destruct uf; [|discriminate].
    destruct js as [e|[[succ errf tr su bu qu fl]|]]; vm_compute;
      repeat apply conj; reflexivity.
  - destruct rb; [|discriminate]. destruct (Hrd eq_refl) as [url ->].
    destruct js as [e|[[succ errf tr su bu qu fl]|]]; vm_compute;
      repeat apply conj; reflexivity.
Qed.

Lemma generate_request_failed_witness :
  let env := with_fetch
               (inr {| resp_ok := false; resp_status := 500;
                       resp_json := inr (Some empty_payload) |}) notes_env in
  let r := generate_click env (handleFileSelect lecture_mp3 (load index_page)) in
  toastMsg (toastDom (run_state r)) = "HTTP 500"
  /\ toastHidden (toastDom (run_state r)) = false.
Proof.
  destruct (generate_request_failed
              (with_fetch
                 (inr {| resp_ok := false; resp_status := 500;
                         resp_json := inr (Some empty_payload) |}) notes_env)
              (handleFileSelect lecture_mp3 (load index_page))
              {| resp_ok := false; resp_status := 500;
                 resp_json := inr (Some empty_payload) |})
    as (H1 & H2 & _); try reflexivity.
  - intros H. vm_compute in H. discriminate H.
  - split; assumption.
Defined.

(** ** Display of the results *)

(** X8.  Rendering replaces what was rendered before, whatever it was:
    rendering a second payload over a first leaves the page as rendering
    the second alone.  There is one quiz block per quiz item and one card
    per flashcard, in the order of the payload, the block at position [i]
    being numbered [i + 1]; the bullets are shown as they came. *)
Theorem displayResults_replaces :
  forall (first second : Payload) (s : State),
    let d := resultsDom (displayResults second s) in
    displayResults second (displayResults first s) = displayResults second s
    /\ length (quizGrid d) = length (default [] (p_quiz second))
    /\ length (flashGrid d) = length (default [] (p_flashcards second))
    /\ bulletsList d = default [] (p_bullets second)
    /\ (forall i item,
          default [] (p_quiz second) !! i = Some item ->
          quizGrid d !! i = Some (quiz_item_html i item))
    /\ (forall i card,
          default [] (p_flashcards second) !! i = Some card ->
          flashGrid d !! i = Some (flashcard_html card)).
Proof.
  intros first second s d. subst d.
  rewrite displayResults_resultsDom. cbn [quizGrid flashGrid bulletsList].
  repeat apply conj.
  - rewrite !displayResults_eq. destruct_state s. reflexivity.
  - apply length_imap.
  - apply length_map.
  - reflexivity.
  - intros i item H. rewrite list_lookup_imap, H. reflexivity.
  - intros i card H. rewrite list_lookup_fmap, H. reflexivity.
Qed.

Lemma displayResults_replaces_witness :
  quizGrid (resultsDom (displayResults script_payload index_page)) !! 0
  = Some (quiz_item_html 0 {| question := Some script_text; answer := Some script_text |})
  /\ flashGrid (resultsDom (displayResults script_payload index_page)) !! 0
     = Some (flashcard_html {| front := Some script_text; back := Some script_text |}).
Proof.
  destruct (displayResults_replaces sparse_payload script_payload index_page)
    as (_ & _ & _ & _ & Hq & Hf).
  split; [apply Hq | apply Hf]; reflexivity.
Defined.

(** ** Microphone recording *)











Lemma stopRecording_eq (s : State) :
  stopRecording s =
  stop_cleanup (recordingTimer (vars s))
    match mediaRecorder (vars s) with
    | Some id => if recorder_active id s then recorder_stop id s else s
    | None => s
    end.
Proof.
  unfold stopRecording, stop_cleanup, andThen.
  destruct (mediaRecorder (vars s)) as [id|]; [|reflexivity].
  destruct (recorder_active id s); [|reflexivity].
  destruct_state s. reflexivity.
Qed.

Lemma stop_cleanup_twice (t : option nat) (s : State) :
  stop_cleanup t (stop_cleanup t s) = stop_cleanup t s.
Proof.
  destruct_state s. destruct t as [i|]; cbn; [|reflexivity].
  now rewrite list_insert_insert_eq.
Qed.

Lemma stop_cleanup_frame (t : option nat) (s : State) :
  vars (stop_cleanup t s) = vars s
  /\ recorders (browser (stop_cleanup t s)) = recorders (browser s).
Proof. destruct_state s. destruct t; split; reflexivity. Qed.

Lemma recorder_active_stopped (id : nat) (s : State) :
  recorder_active id (recorder_stop id s) = false.
Proof.
  destruct_state s. unfold recorder_active. cbn.
  rewrite list_lookup_alter_eq. destruct (recs !! id); reflexivity.
Qed.

(** X11.  [stopRecording] is idempotent in every state: a second call right
    after a first one changes nothing; the recorder, if it was recording,
    is stopped once. *)
Theorem stopRecording_idempotent :
  forall s : State, stopRecording (stopRecording s) = stopRecording s.
Proof.
  intros s. rewrite (stopRecording_eq (stopRecording s)).
  rewrite (stopRecording_eq s).
  set (s1 := match mediaRecorder (vars s) with
             | Some id => if recorder_active id s then recorder_stop id s else s
             | None => s
             end).
  assert (Hv : vars s1 = vars s).
  { subst s1. destruct (mediaRecorder (vars s)) as [id|]; [|reflexivity].
    destruct (recorder_active id s); [|reflexivity]. now destruct_state s. }
  destruct (stop_cleanup_frame (recordingTimer (vars s)) s1) as [Hv1 Hr1].
  rewrite Hv1, Hv.
  assert (Hin : match mediaRecorder (vars s) with
                | Some id => recorder_active id
                               (stop_cleanup (recordingTimer (vars s)) s1) = false
                | None => True
                end).
  { destruct (mediaRecorder (vars s)) as [id|] eqn:Em; [|exact I].
    unfold recorder_active at 1. rewrite Hr1. fold (recorder_active id s1).
    subst s1. destruct (recorder_active id s) eqn:Ea;
      [apply recorder_active_stopped | exact Ea]. }
  destruct (mediaRecorder (vars s)) as [id|].
  - rewrite Hin. apply stop_cleanup_twice.
  - apply stop_cleanup_twice.
Qed.

(** X12.  When the microphone is granted but the [MediaRecorder]
    constructor refuses the type audio/webm, the handler has already reset
    the session: the previous recorded blob and chunks are gone, the timer
    reads 00:00 and the playback element is hidden and emptied.  The
    notice says that microphone access was denied, no recorder is created,
    the start control stays as it was, and the stream that was granted is
    not released. *)
Theorem startRecording_unsupported :
  forall (err : Thrown) (s : State),
    let r := startRecording (MicGranted false err) s in
    run_val r = inr tt
    /\ recordedBlob (vars (run_state r)) = None
    /\ audioChunks (vars (run_state r)) = []
    /\ recordingSeconds (vars (run_state r)) = 0%N
    /\ timerEl (recorderDom (run_state r)) = "00:00"
    /\ playbackHidden (recorderDom (run_state r)) = true
    /\ playbackSrc (recorderDom (run_state r)) = None
    /\ toastMsg (toastDom (run_state r)) = mic_denied_notice
    /\ toastHidden (toastDom (run_state r)) = false
    /\ mediaRecorder (vars (run_state r)) = mediaRecorder (vars s)
    /\ recordingTimer (vars (run_state r)) = recordingTimer (vars s)
    /\ recorders (browser (run_state r)) = recorders (browser s)
    /\ intervals (browser (run_state r)) = intervals (browser s)
    /\ streams (browser (run_state r)) = streams (browser s) ++ [true]
    /\ recordBtnHidden (recorderDom (run_state r)) = recordBtnHidden (recorderDom s)
    /\ stopBtnHidden (recorderDom (run_state r)) = stopBtnHidden (recorderDom s)
    /\ generateDom (run_state r) = generateDom s.
Proof.
  intros err s r. subst r. destruct_state s.
  cbn. repeat apply conj; reflexivity.
Qed.

(** ** Tab switching *)

(** X13.  A click on a tab makes its mode the active one and recomputes the
    generate control for that mode; it keeps both selections, so that
    switching away and back finds the uploaded file and the recorded blob
    still there.  Only the last of two tab clicks counts. *)
Theorem tab_click_keeps_selections :
  forall (m m' : Mode) (s : State),
    activeMode (vars (tab_click m s)) = m
    /\ uploadedFile (vars (tab_click m s)) = uploadedFile (vars s)
    /\ recordedBlob (vars (tab_click m s)) = recordedBlob (vars s)
    /\ generateDisabled (generateDom (tab_click m s))
       = negb (match m with
               | upload => is_some (uploadedFile (vars s))
               | record => is_some (recordedBlob (vars s))
               end)
    /\ tab_click m (tab_click m' s) = tab_click m s.
Proof.
  intros m m' s. destruct_state s.
  destruct m, m', uf, rb; repeat apply conj; reflexivity.
Qed.

(** ** Error toast *)

(** X14.  Every notice starts its own six-second timeout and none is ever
    cancelled: after a first notice and then a second one, the timeout of
    the first hides the toast although it shows the second message, and the
    timeout of the second is still pending. *)
Theorem toast_hidden_by_earlier_timeout :
  forall (m1 m2 : option string) (s : State),
    let s2 := showError m2 (showError m1 s) in
    toastMsg (toastDom s2) = default EmptyString m2
    /\ toastHidden (toastDom s2) = false
    /\ toastTimers (browser s2) = S (S (toastTimers (browser s)))
    /\ toastHidden (toastDom (handle ToastTimeout s2)) = true
    /\ toastMsg (toastDom (handle ToastTimeout s2)) = default EmptyString m2
    /\ toastTimers (browser (handle ToastTimeout s2)) = S (toastTimers (browser s)).
Proof.
  intros m1 m2 s s2. subst s2. destruct_state s.
  repeat apply conj; reflexivity.
Qed.

(** ** Quiz answers *)

(** X15.  The first click on the toggle of a freshly rendered quiz item
    reveals the answer; from then on every click switches between revealed
    and hidden, the button text saying what the next click does.  Whatever
    inline [display] the answer had, one click leaves it at "block" or
    "none" with the matching button text, and three clicks leave the item
    as one click does. *)
Theorem toggleAnswer_alternates :
  forall (n : nat) (v : QuizToggle),
    toggle_clicks (S (2 * n)) rendered_toggle
    = {| answer_display := "block"; toggle_text := "🙈 Hide Answer" |}
    /\ toggle_clicks (S (S (2 * n))) rendered_toggle
       = {| answer_display := "none"; toggle_text := "👁 Reveal Answer" |}
    /\ (toggleAnswer v
         = {| answer_display := "block"; toggle_text := "🙈 Hide Answer" |}
        \/ toggleAnswer v
           = {| answer_display := "none"; toggle_text := "👁 Reveal Answer" |})
    /\ toggleAnswer (toggleAnswer (toggleAnswer v)) = toggleAnswer v.
Proof.
  intros n v.
  assert (H : toggle_clicks (S (2 * n)) rendered_toggle
              = {| answer_display := "block"; toggle_text := "🙈 Hide Answer" |}).
  { induction n as [|n IH]; [reflexivity|].
    replace (S (2 * S n)) with (S (S (S (2 * n)))) by lia.
    cbn [toggle_clicks] in *. rewrite IH. reflexivity. }
  assert (Hv : toggleAnswer v
               = {| answer_display := "block"; toggle_text := "🙈 Hide Answer" |}
               \/ toggleAnswer v
                  = {| answer_display := "none"; toggle_text := "👁 Reveal Answer" |}).
  { unfold toggleAnswer.
    destruct (String.eqb (answer_display v) "block"); [right|left]; reflexivity. }
  repeat apply conj.
  - exact H.
  - cbn [toggle_clicks] in *. rewrite H. reflexivity.
  - exact Hv.
  - destruct Hv as [-> | ->]; reflexivity.
Qed.

(** ** PDF download *)

(** X16.  An export sends exactly one request, carrying the stored result.
    When it succeeds, one object URL is created for the document, the
    download of [lecture_notes.pdf] refers to it, and it is revoked before
    the handler ends; when it fails, no object URL is created and nothing
    is downloaded.  Object URLs that existed before are left alone. *)
Theorem download_click_object_url :
  forall (o : Thrown + PdfResponse) (s : State),
    let r := download_click o s in
    requests (browser (run_state r))
    = requests (browser s) ++ [PostGeneratePdf (notesData (vars s))]
    /\ objectUrls (browser (run_state r))
       = objectUrls (browser s)
         ++ match pdf_document o with
            | Some b => [{| url_blob := b; url_live := false |}]
            | None => []
            end
    /\ downloads (browser (run_state r))
       = downloads (browser s)
         ++ match pdf_document o with
            | Some _ => [("lecture_notes.pdf", length (objectUrls (browser s)))]
            | None => []
            end
    /\ vars (run_state r) = vars s.
Proof.
  intros o s r. subst r.
  destruct o as [e|[[] [e|b]]]; destruct_state s;
    cbv -[list_alter app length];
    rewrite ?app_nil_r; repeat apply conj; try reflexivity.
  pose proof (alter_app_r (fun u => {| url_blob := url_blob u; url_live := false |})
                urls [{| url_blob := b; url_live := true |}] 0) as H.
  rewrite Nat.add_0_r in H. exact H.
Qed.

(** ** Upload *)

(** X17.  A supported file becomes the selection and replaces the one
    before it; a file that is refused, a drop without a file and a file
    dialog closed without a file all keep the selection; the remove button
    empties it, hides the preview, clears the file input and disables the
    generate control in upload mode.  None of this touches the recorded
    blob. *)
Theorem upload_selection :
  forall (f g : File) (value : string) (s : State),
    accepted f = true -> accepted g = false ->
    let s1 := handleFileSelect f s in
    uploadedFile (vars s1) = Some f
    /\ fileNameDisp (uploadDom s1)
       = "📎 " +:+ file_name f +:+ " (" +:+ formatBytes (file_size f) +:+ ")"
    /\ uploadedFile (vars (handleFileSelect g s1)) = Some f
    /\ uploadedFile (vars (dropzone_drop None s1)) = Some f
    /\ uploadedFile (vars (fileInput_change value None s1)) = Some f
    /\ uploadedFile (vars (removeFile_click s1)) = None
    /\ filePreviewHidden (uploadDom (removeFile_click s1)) = true
    /\ fileInputValue (uploadDom (removeFile_click s1)) = EmptyString
    /\ (activeMode (vars s) = upload ->
          generateDisabled (generateDom s1) = false
          /\ generateDisabled (generateDom (removeFile_click s1)) = true)
    /\ recordedBlob (vars (removeFile_click (handleFileSelect g s1)))
       = recordedBlob (vars s).
Proof.
  intros f g value s Hf Hg s1. subst s1.
  rewrite (handleFileSelect_rejected g _ Hg).
  rewrite (handleFileSelect_accepted f s Hf).
  destruct_state s. cbn. repeat apply conj; try reflexivity.
  intros ->. split; reflexivity.
Qed.

Lemma upload_selection_witness :
  uploadedFile (vars (handleFileSelect notes_txt
                        (handleFileSelect lecture_mp3 (load index_page))))
  = Some lecture_mp3
  /\ generateDisabled (generateDom (removeFile_click
                         (handleFileSelect lecture_mp3 (load index_page)))) = true.
Proof.
  destruct (upload_selection lecture_mp3 notes_txt EmptyString (load index_page))
    as (_ & _ & H1 & _ & _ & _ & _ & _ & H2 & _); try reflexivity.
  split; [exact H1 | apply H2; reflexivity].
Defined.

(** ** File sizes *)

(** X18.  [formatBytes] shows sizes below 1024 in bytes, below 1024 * 1024
    in KB and above in MB (units of 1024), the KB and MB values with one
    decimal, rounded to the nearest tenth, a tie going up.  The KB range is
    left only at 1024 * 1024 bytes, so the last 51 byte counts below it
    read "1024.0 KB". *)
Theorem formatBytes_rounding :
  forall b : N,
    ((b < 1024)%N -> formatBytes b = decimal b +:+ " B")
    /\ ((1024 <= b < 1048576)%N ->
        exists n,
          formatBytes b
          = (decimal (n / 10) +:+ "." +:+ decimal (n mod 10)) +:+ " KB"
          /\ (2048 * n <= 20 * b + 1024 < 2048 * (n + 1))%N)
    /\ ((1048576 <= b)%N ->
        exists n,
          formatBytes b
          = (decimal (n / 10) +:+ "." +:+ decimal (n mod 10)) +:+ " MB"
          /\ (2097152 * n <= 20 * b + 1048576 < 2097152 * (n + 1))%N)
    /\ ((1048525 <= b < 1048576)%N -> formatBytes b = "1024.0 KB").
Proof.
  intros b. unfold formatBytes, toFixed1.
  change (1024 * 1024)%N with 1048576%N.
  change (2 * 1024)%N with 2048%N. change (2 * 1048576)%N with 2097152%N.
  repeat apply conj.
  - intros H. apply N.ltb_lt in H. now rewrite H.
  - intros [H1 H2]. apply N.ltb_ge in H1. apply N.ltb_lt in H2.
    rewrite H1, H2. exists ((20 * b + 1024) / 2048)%N. split; [reflexivity|].
    pose proof (N.Div0.mul_div_le (20 * b + 1024) 2048).
    pose proof (N.mul_succ_div_gt (20 * b + 1024) 2048 ltac:(lia)). lia.
  - intros H1.
    assert (H0 : (b <? 1024)%N = false) by (apply N.ltb_ge; lia).
    apply N.ltb_ge in H1. rewrite H0, H1.
    exists ((20 * b + 1048576) / 2097152)%N. split; [reflexivity|].
    pose proof (N.Div0.mul_div_le (20 * b + 1048576) 2097152).
    pose proof (N.mul_succ_div_gt (20 * b + 1048576) 2097152 ltac:(lia)). lia.
  - intros [H1 H2].
    assert (H0 : (b <? 1024)%N = false) by (apply N.ltb_ge; lia).
    assert (H3 : (b <? 1048576)%N = true) by (apply N.ltb_lt; lia).
    rewrite H0, H3.
    assert (Hn : ((20 * b + 1024) / 2048 = 10240)%N).
    { assert (10240 <= (20 * b + 1024) / 2048)%N
        by (apply N.div_le_lower_bound; lia).
      assert ((20 * b + 1024) / 2048 < 10241)%N
        by (apply N.Div0.div_lt_upper_bound; lia).
      lia. }
    rewrite Hn. reflexivity.
Qed.

Lemma formatBytes_rounding_witness :
  formatBytes 500 = "500 B"
  /\ formatBytes 1048570 = "1024.0 KB"
  /\ (exists n, formatBytes 2048
                = (decimal (n / 10) +:+ "." +:+ decimal (n mod 10)) +:+ " KB"
                /\ (2048 * n <= 20 * 2048 + 1024 < 2048 * (n + 1))%N)
  /\ (exists n, formatBytes 2400000
                = (decimal (n / 10) +:+ "." +:+ decimal (n mod 10)) +:+ " MB"
                /\ (2097152 * n <= 20 * 2400000 + 1048576 < 2097152 * (n + 1))%N).
Proof.
  destruct (formatBytes_rounding 500) as (H1 & _).
  destruct (formatBytes_rounding 1048570) as (_ & _ & _ & H2).
  destruct (formatBytes_rounding 2048) as (_ & H3 & _).
  destruct (formatBytes_rounding 2400000) as (_ & _ & H4 & _).
  repeat apply conj.
  - apply H1. reflexivity.
  - apply H2. split; [discriminate | reflexivity].
  - apply H3. split; [discriminate | reflexivity].
  - apply H4. discriminate.
Defined.

(** ** Processing overlay *)

(** X19.  [setStep] does not depend on what the progress display showed
    before: from any class state it leaves the given stage active, the
    stages before it done and the stages after it pending, so that calling
    it twice is the same as the last call alone; it touches nothing but
    the four step elements.  [showProcessingOverlay] shows the overlay and
    leaves all four pending, whatever they were. *)
Theorem setStep_shows :
  forall (st st' : Stage) (s : State),
    shows (stepEls (generateDom (setStep st s))) (Some st)
    /\ setStep st (setStep st' s) = setStep st s
    /\ overlayHidden (generateDom (setStep st s)) = overlayHidden (generateDom s)
    /\ generateDisabled (generateDom (setStep st s)) = generateDisabled (generateDom s)
    /\ vars (setStep st s) = vars s
    /\ browser (setStep st s) = browser s
    /\ shows (stepEls (generateDom (showProcessingOverlay (setStep st s)))) None
    /\ overlayHidden (generateDom (showProcessingOverlay s)) = false.
Proof.
  intros st st' s. destruct_state s.
  destruct st, st'; repeat apply conj; try reflexivity; intros []; reflexivity.
Qed.

(** ** The stored result *)

Lemma notesData_generate_click (env : GenerateEnv) (s : State) :
  notesData (vars (run_state (generate_click env s))) = notesData (vars s)
  \/ p_success (notesData (vars (run_state (generate_click env s)))) = Some true.
Proof.
  rewrite generate_click_run.
  pose proof (generate_try_summary env (showProcessingOverlay (setLoading true s)))
    as H.
  destruct (generate_start s) as (Hv & _). rewrite Hv in H.
  destruct (generate_try env (showProcessingOverlay (setLoading true s)))
    as [[err|data] s1 fr];
    destruct H as (_ & _ & _ & _ & _ & Hn); cbn [run_state].
  - left. rewrite <- Hn. now destruct_state s1.
  - right. destruct Hn as [Hn Hs].
    destruct (displayResults_frame data
                (setLoading false (hideProcessingOverlay (setStep flash s1))))
      as (-> & _).
    replace (notesData (vars (setLoading false
               (hideProcessingOverlay (setStep flash s1))))) with data;
      [exact Hs|].
    rewrite <- Hn. now destruct_state s1.
Qed.

(** X20.  Whatever happens to the page after it was loaded, the stored
    result is either the empty object or a payload that came with a true
    success flag: a failed generation never leaves anything in it, and no
    handler other than the generate handler writes it. *)
Theorem stored_result_invariant :
  forall (page : State) (history : list Event),
    stored_result_valid (notesData (vars (handle_all history (load page)))).
Proof.
  intros page history.
  assert (H0 : stored_result_valid (notesData (vars (load page))))
    by (left; now destruct_state page).
  revert H0. generalize (load page) as s. unfold handle_all.
  induction history as [|e history IH]; intros s Hs; [exact Hs|].
  cbn [fold_left]. apply IH.
  destruct (is_generate e) eqn:Eg.
  - destruct e; try discriminate Eg. cbn [handle].
    destruct (notesData_generate_click env s) as [->|H]; [exact Hs | now right].
  - now rewrite (notesData_handle e s Eg).
Qed.

(** ** Object URLs *)

Lemma objectUrls_generate_try (env : GenerateEnv) (s : State) :
  match generate_try env s with
  | MkRun _ s1 _ => objectUrls (browser s1) = objectUrls (browser s)
  end.
Proof. split_generate env s; vm_compute; reflexivity. Qed.

Lemma objectUrls_generate_click (env : GenerateEnv) (s : State) :
  objectUrls (browser (run_state (generate_click env s))) = objectUrls (browser s).
Proof.
  rewrite generate_click_run.
  pose proof (objectUrls_generate_try env (showProcessingOverlay (setLoading true s)))
    as H.
  destruct (generate_start s) as (_ & Hb & _). rewrite Hb in H.
  destruct (generate_try env (showProcessingOverlay (setLoading true s)))
    as [[err|data] s1 fr]; cbn [run_state].
  - rewrite <- H. now destruct_state s1.
  - destruct (displayResults_frame data
                (setLoading false (hideProcessingOverlay (setStep flash s1))))
      as (_ & _ & _ & _ & _ & _ & _ & ->).
    rewrite <- H. now destruct_state s1.
Qed.

Lemma objectUrls_download_click (o : Thrown + PdfResponse) (s : State) :
  exists new,
    objectUrls (browser (run_state (download_click o s)))
    = objectUrls (browser s) ++ new.
Proof.
  destruct o as [e|[[] [e|b]]]; destruct_state s;
    cbv -[list_alter app length];
    try (exists []; now rewrite app_nil_r).
  exists [{| url_blob := b; url_live := false |}].
  pose proof (alter_app_r (fun u => {| url_blob := url_blob u; url_live := false |})
                urls [{| url_blob := b; url_live := true |}] 0) as H.
  rewrite Nat.add_0_r in H. exact H.
Qed.

Lemma objectUrls_handle (e : Event) (s : State) :
  exists new,
    objectUrls (browser (handle e s)) = objectUrls (browser s) ++ new.
Proof.
  destruct e; cbn [handle];
    try (exists []; rewrite app_nil_r; destruct_state s; reflexivity).
  - exists []. rewrite app_nil_r.
    unfold dropzone_drop, andThen. destruct file as [f|]; [|now destruct_state s].
    destruct (accepted f) eqn:E;
      [rewrite (handleFileSelect_accepted f _ E)
      |rewrite (handleFileSelect_rejected f _ E)];
      destruct_state s; reflexivity.
  - exists []. rewrite app_nil_r.
    unfold fileInput_change, andThen. destruct file as [f|]; [|now destruct_state s].
    destruct (accepted f) eqn:E;
      [rewrite (handleFileSelect_accepted f _ E)
      |rewrite (handleFileSelect_rejected f _ E)];
      destruct_state s; reflexivity.
  - exists []. rewrite app_nil_r.
    destruct o as [err|[] err]; destruct_state s; reflexivity.
  - exists []. rewrite app_nil_r. rewrite stopRecording_eq.
    destruct (mediaRecorder (vars s)) as [id|];
      [destruct (recorder_active id s)|];
      destruct_state s; destruct rt; reflexivity.
  - exists []. rewrite app_nil_r. destruct_state s. cbn [browser recorders].
    destruct (recs !! id) as [[[] str []]|]; try reflexivity;
      destruct data as [[|b bytes] ty]; reflexivity.
  - destruct_state s. cbn [browser recorders].
    destruct (recs !! id) as [[st str []]|];
      try (exists []; now rewrite app_nil_r).
    eexists. reflexivity.
  - exists []. rewrite app_nil_r. destruct_state s. cbn [browser intervals].
    destruct (ints !! id) as [[|]|]; reflexivity.
  - exists []. rewrite app_nil_r. apply objectUrls_generate_click.
  - apply objectUrls_download_click.
  - exists []. rewrite app_nil_r. destruct_state s. destruct tts; reflexivity.
Qed.

(** X21.  No handler ever revokes or changes an object URL that existed
    before it ran: through every history of events the list of object URLs
    only grows at its end.  The playback URL of a recording therefore stays
    live for as long as the page lives; the only URL that is ever revoked
    is the one an export creates for itself. *)
Theorem object_urls_never_released :
  forall (history : list Event) (s : State),
    (exists new,
       objectUrls (browser (handle_all history s)) = objectUrls (browser s) ++ new)
    /\ (forall i u,
          objectUrls (browser s) !! i = Some u ->
          objectUrls (browser (handle_all history s)) !! i = Some u).
Proof.
  intros history s.
  assert (H : exists new,
            objectUrls (browser (handle_all history s))
            = objectUrls (browser s) ++ new).
  { unfold handle_all. revert s.
    induction history as [|e history IH]; intros s.
    - exists []. now rewrite app_nil_r.
    - cbn [fold_left]. destruct (IH (handle e s)) as [new2 H2].
      destruct (objectUrls_handle e s) as [new1 H1].
      exists (new1 ++ new2). now rewrite H2, H1, app_assoc. }
  split; [exact H|].
  destruct H as [new ->]. intros i u Hi. now apply lookup_app_l_Some.
Qed.

Lemma object_urls_never_released_witness :
  objectUrls (browser (handle_all [DownloadClick pdf_answer; ToastCloseClick]
                         (handle_all three_second_recording (load index_page)))) !! 0
  = Some {| url_blob := new_Blob [chunk 4; chunk 4; chunk 4; chunk 1] "audio/webm";
            url_live := true |}.
Proof.
  apply (object_urls_never_released [DownloadClick pdf_answer; ToastCloseClick]
           (handle_all three_second_recording (load index_page))).
  reflexivity.
Defined.
